(** * passport-zalo: the Zalo OAuth 2.0 strategy, its profile normalizer and
      its error type, embedded from [lib/strategy.js], [lib/profile.js] and
      [lib/errors/apierror.js]. *)

From Stdlib Require Import ZArith String Ascii List Bool Lia.
From Stdlib Require Import Floats.SpecFloat.
From Stdlib Require DecimalString DecimalNat DecimalFacts.
Import ListNotations.
Local Open Scope string_scope.
Local Open Scope list_scope.
#[local] Set Warnings "-register-all".

(** ** JavaScript values *)

Module JS.

(** A JavaScript number is an IEEE 754 binary64. *)
Definition number : Type := spec_float.

Definition NaN : number := S754_nan.

(** The binary64 nearest to an integer (ties to even); [neg] is the sign
    given to a zero. *)
Definition number_of_Z (neg : bool) (z : Z) : number :=
  binary_normalize 53 1024 z 0 neg.

(** The values [JSON.parse] produces, and [undefined] for what is absent. *)
Inductive value : Type :=
| VUndefined
| VNull
| VBool (b : bool)
| VNumber (n : number)
| VString (s : string)
| VArray (items : list value)
| VObject (props : list (string * value)).

(** [typeof v] *)
Definition typeof (v : value) : string :=
  match v with
  | VUndefined => "undefined"
  | VNull => "object"
  | VBool _ => "boolean"
  | VNumber _ => "number"
  | VString _ => "string"
  | VArray _ => "object"
  | VObject _ => "object"
  end.

(** ToBoolean: what [if (v)], [v && ...] and [!v] test. *)
Definition truthy (v : value) : bool :=
  match v with
  | VUndefined | VNull => false
  | VBool b => b
  | VNumber (S754_zero _) | VNumber S754_nan => false
  | VNumber _ => true
  | VString s => negb (s =? "")
  | VArray _ | VObject _ => true
  end.

(** A string or [null]/[undefined], as [url.search], [err.data] and the
    members of a query are. *)
Definition truthy_str (o : option string) : bool :=
  match o with
  | Some s => negb (s =? "")
  | None => false
  end.

(** [o || d] on such a string. *)
Definition or_else (o : option string) (d : string) : string :=
  match o with
  | Some s => if s =? "" then d else s
  | None => d
  end.

Definition of_option (o : option string) : value :=
  match o with
  | Some s => VString s
  | None => VUndefined
  end.

(** Own properties of an object, in insertion order. *)
Fixpoint lookup (k : string) (props : list (string * value)) : option value :=
  match props with
  | [] => None
  | (k', v) :: rest => if k' =? k then Some v else lookup k rest
  end.

(** [o.k = v]: overwrite in place, or add at the end. *)
Fixpoint assign (k : string) (v : value) (props : list (string * value))
  : list (string * value) :=
  match props with
  | [] => [(k, v)]
  | (k', v') :: rest =>
      if k' =? k then (k, v) :: rest else (k', v') :: assign k v rest
  end.

Definition has_own (k : string) (v : value) : bool :=
  match v with
  | VObject props => match lookup k props with Some _ => true | None => false end
  | _ => false
  end.

Definition keys (v : value) : list string :=
  match v with
  | VObject props => map fst props
  | _ => []
  end.

Inductive exn : Type :=
| SyntaxError
| TypeError.

(** How an evaluation ends: with a value, or with a thrown exception. *)
Inductive completion (A : Type) : Type :=
| Normal (a : A)
| Throw (e : exn).
Arguments Normal {A} a.
Arguments Throw {A} e.

Definition cbind {A B} (c : completion A) (k : A -> completion B)
  : completion B :=
  match c with
  | Normal a => k a
  | Throw e => Throw e
  end.

(** [v.k], for the member names this program reads ([id], [name],
    [birthday], [gender], [picture], [data], [url], [error], [message],
    [code]): none of them is defined by a built-in prototype, so the read is
    an own-property lookup on an object, [undefined] on any other value
    that has members, and a TypeError on [null] and [undefined]. *)
Definition get (v : value) (k : string) : completion value :=
  match v with
  | VUndefined | VNull => Throw TypeError
  | VObject props =>
      Normal (match lookup k props with Some x => x | None => VUndefined end)
  | _ => Normal VUndefined
  end.

(** [v.k] where the read cannot throw. *)
Definition member (v : value) (k : string) : value :=
  match get v k with
  | Normal x => x
  | Throw _ => VUndefined
  end.

(** [a.join(sep)] on an array of strings. *)
Fixpoint join (sep : string) (l : list string) : string :=
  match l with
  | [] => ""
  | [x] => x
  | x :: rest => x ++ sep ++ join sep rest
  end.

(** *** [parseInt(s, 10)] *)

(** A string here is the UTF-8 encoding of the JavaScript string, so a
    character outside ASCII takes two or three bytes. *)

(** One-byte white space and line terminators: TAB, LF, VT, FF, CR and the
    space. *)
Definition is_white_space (c : ascii) : bool :=
  let n := nat_of_ascii c in
  ((9 <=? n) && (n <=? 13))%nat || (n =? 32)%nat.

(** The three-byte white space and line terminators, by their bytes. *)
Definition is_white_space3 (b1 b2 b3 : nat) : bool :=
  ((b1 =? 225) && (b2 =? 154) && (b3 =? 128)
   (* U+1680 *)
   || (b1 =? 226) && (b2 =? 128)
      && ((128 <=? b3) && (b3 <=? 138)
          (* U+2000 to U+200A *)
          || (b3 =? 168) || (b3 =? 169)
          (* U+2028, U+2029 *)
          || (b3 =? 175))
          (* U+202F *)
   || (b1 =? 226) && (b2 =? 129) && (b3 =? 159)
   (* U+205F *)
   || (b1 =? 227) && (b2 =? 128) && (b3 =? 128)
   (* U+3000 *)
   || (b1 =? 239) && (b2 =? 187) && (b3 =? 191))%nat.
   (* U+FEFF *)

(** What follows one white-space character or line terminator at the start
    of [s]: the one-byte ones, U+00A0 (two bytes) and the three-byte ones;
    [None] when [s] does not start with one. *)
Definition white_space (s : string) : option string :=
  match s with
  | EmptyString => None
  | String c1 r1 =>
      let b1 := nat_of_ascii c1 in
      if is_white_space c1 then Some r1
      else if (b1 =? 194)%nat then
        match r1 with
        | String c2 r2 =>
            if (nat_of_ascii c2 =? 160)%nat then Some r2 else None
        | EmptyString => None
        end
      else if ((b1 =? 225) || (b1 =? 226) || (b1 =? 227) || (b1 =? 239))%nat
      then
        match r1 with
        | String c2 (String c3 r3) =>
            if is_white_space3 b1 (nat_of_ascii c2) (nat_of_ascii c3)
            then Some r3 else None
        | _ => None
        end
      else None
  end.

(** Leading white space removed, one character at a time; each removal
    shortens the string, so its length is fuel enough. *)
Fixpoint trim (fuel : nat) (s : string) : string :=
  match fuel with
  | O => s
  | S fuel =>
      match white_space s with
      | Some rest => trim fuel rest
      | None => s
      end
  end.

Definition trim_start (s : string) : string := trim (String.length s) s.

Definition digit_of (c : ascii) : option Z :=
  let n := nat_of_ascii c in
  if ((48 <=? n) && (n <=? 57))%nat then Some (Z.of_nat n - 48)%Z else None.

(** The longest prefix of decimal digits, read left to right: the number
    read so far and whether a digit was seen. *)
Fixpoint digits (s : string) (acc : Z) (seen : bool) : Z * bool :=
  match s with
  | String c rest =>
      match digit_of c with
      | Some d => digits rest (10 * acc + d)%Z true
      | None => (acc, seen)
      end
  | EmptyString => (acc, seen)
  end.

(** White space and line terminators are skipped, then an optional sign is
    read, then the longest prefix of decimal digits; no digit gives NaN. *)
Definition parseInt10 (s : string) : number :=
  let s := trim_start s in
  let '(neg, s) :=
    match s with
    | String "-"%char rest => (true, rest)
    | String "+"%char rest => (false, rest)
    | _ => (false, s)
    end in
  match digits s 0%Z false with
  | (n, true) => number_of_Z neg (if neg then (- n)%Z else n)
  | (_, false) => NaN
  end.

End JS.
Import JS.

Declare Scope js_scope.
Notation "x <- c ;; k" := (cbind c (fun x => k))
  (at level 61, c at next level, right associativity) : js_scope.
Local Open Scope js_scope.

(** ** [lib/errors/apierror.js] *)

Module APIError.

Record t : Type := mk {
  name : string;
  message : value;
  code : value;
  status : Z
}.

(** [new ZaloAPIError(message, code)] *)
Definition ZaloAPIError (message code : value) : t :=
  {| name := "ZaloAPIError";
     message := message;
     code := code;
     status := 500 |}.

End APIError.

(** ** [lib/profile.js] *)

Module Profile.

Section Parse.

(** [JSON.parse] on a string; [None] when it throws a SyntaxError. *)
Variable JSON_parse : string -> option value.

Definition JSON_parse_or_throw (s : string) : completion value :=
  match JSON_parse s with
  | Some j => Normal j
  | None => Throw SyntaxError
  end.

(** [exports.parse]: the normalized profile is an object, given by its
    properties. *)
Definition parse (json : value) : completion (list (string * value)) :=
  json <- match json with
          | VString s => JSON_parse_or_throw s
          | _ => Normal json
          end ;;
  let profile := [] in
  id <- get json "id" ;;
  let profile := assign "id" id profile in
  name <- get json "name" ;;
  let profile := assign "displayName" name profile in
  birthday <- get json "birthday" ;;
  let profile := assign "birthday" birthday profile in
  gender <- get json "gender" ;;
  let profile := assign "gender" gender profile in
  picture <- get json "picture" ;;
  if truthy picture then
    nested <- (if typeof picture =? "object"
               then data <- get picture "data" ;; Normal (truthy data)
               else Normal false) ;;
    if nested then
      data <- get picture "data" ;;
      url <- get data "url" ;;
      Normal (assign "photos" (VArray [VObject [("value", url)]]) profile)
    else
      Normal (assign "photos" (VArray [VObject [("value", picture)]]) profile)
  else
    Normal profile.

End Parse.

End Profile.

(** ** [lib/strategy.js] *)

Module Strategy.

(** The error object of [oauth.get]: a status code and the response body
    ([{ statusCode, data }]), or an error without them. *)
Record transport_error : Type := {
  statusCode : option Z;
  data : option string
}.

(** The errors handed to [done]. *)
Inductive error : Type :=
| APIError (e : APIError.t)
| InternalOAuthError (message : string) (oauthError : transport_error)
| Error (message : string).

(** The object [uri.parse] returns: [search] is the member this program
    reads and writes, [others] holds the members it leaves alone. *)
Record urlObject (R : Type) : Type := {
  search : option string;
  others : R
}.
Arguments search {R} u.
Arguments others {R} u.

(** [url.search = s] *)
Definition set_search {R} (u : urlObject R) (s : string) : urlObject R :=
  {| search := Some s; others := others u |}.

(** [url.search ? url.search + '&' : ''] *)
Definition amp {R} (u : urlObject R) : string :=
  match search u with
  | Some s => if s =? "" then "" else s ++ "&"
  | None => ""
  end.

(** The options of the constructor. *)
Record options : Type := {
  graphAPIVersion : option string;
  authorizationURL : option string;
  tokenURL : option string;
  scopeSeparator : option string;
  profileURL : option string;
  profileFields : option (list string);
  enableProof : bool;
  clientSecret : string
}.

(** The strategy object: what the constructor hands to [OAuth2Strategy],
    and the members it sets itself. *)
Record t : Type := {
  oauth2_authorizationURL : string;
  oauth2_tokenURL : string;
  oauth2_scopeSeparator : string;
  name : string;
  _profileURL : string;
  _profileFields : option (list string);
  _enableProof : bool;
  _clientSecret : string
}.

(** [function Strategy(options, verify)] *)
Definition Strategy (o : options) : t :=
  let version := or_else (graphAPIVersion o) "v3" in
  {| oauth2_authorizationURL :=
       or_else (authorizationURL o)
               ("https://oauth.zaloapp.com/" ++ version ++ "/auth");
     oauth2_tokenURL :=
       or_else (tokenURL o)
               ("https://oauth.zaloapp.com/" ++ version ++ "/access_token");
     oauth2_scopeSeparator := or_else (scopeSeparator o) ",";
     name := "zalo";
     _profileURL := or_else (profileURL o) "https://graph.zalo.me/v2.0/me";
     _profileFields := profileFields o;
     _enableProof := enableProof o;
     _clientSecret := clientSecret o |}.

(** *** [_convertProfileFields] *)

(** A value of the table: a string, or an array of strings. *)
Inductive entry : Type :=
| One (s : string)
| Many (l : list string).

(** [var map = { id: 'id', displayName: 'name', ... }] *)
Definition map : list (string * entry) :=
  [ ("id", One "id");
    ("displayName", One "name");
    ("gender", One "gender");
    ("birthday", One "birthday");
    ("photos", One "picture") ].

(** [map] is an object literal, so a read of a name it does not own goes on
    to [Object.prototype]. These are its members, each with what [join]
    makes of it: a built-in function prints as its source text, and
    [__proto__] reads as the prototype object itself. *)
Definition native (f : string) : string :=
  "function " ++ f ++ "() { [native code] }".

Definition Object_prototype : list (string * string) :=
  [ ("constructor", native "Object");
    ("__defineGetter__", native "__defineGetter__");
    ("__defineSetter__", native "__defineSetter__");
    ("hasOwnProperty", native "hasOwnProperty");
    ("__lookupGetter__", native "__lookupGetter__");
    ("__lookupSetter__", native "__lookupSetter__");
    ("isPrototypeOf", native "isPrototypeOf");
    ("propertyIsEnumerable", native "propertyIsEnumerable");
    ("toString", native "toString");
    ("valueOf", native "valueOf");
    ("__proto__", "[object Object]");
    ("toLocaleString", native "toLocaleString") ].

Fixpoint assoc {A} (k : string) (l : list (string * A)) : option A :=
  match l with
  | [] => None
  | (k', v) :: rest => if k' =? k then Some v else assoc k rest
  end.

(** What [map[f]] is. *)
Inductive member : Type :=
| Own (e : entry)
| Inherited (printed : string)
| Absent.

Definition map_get (f : string) : member :=
  match assoc f map with
  | Some e => Own e
  | None =>
      match assoc f Object_prototype with
      | Some printed => Inherited printed
      | None => Absent
      end
  end.

(** One round of the [forEach]: what is pushed for [f]. An element that is
    not a string is kept as [join] prints it. *)
Definition push_field (fields : list string) (f : string) : list string :=
  match map_get f with
  | Absent => fields ++ [f]
  | Own (Many l) => fields ++ l
  | Own (One s) => fields ++ [s]
  | Inherited printed => fields ++ [printed]
  end.

Definition _convertProfileFields (profileFields : list string) : string :=
  let fields := fold_left push_field profileFields [] in
  join "," fields.

(** *** [authorizationParams] *)

(** [Strategy.prototype.authorizationParams]: the extra parameters of the
    authorization request, an object given by its properties. The members
    read ([display], [authType], [authNonce]) are, like those of [get], not
    defined by a built-in prototype. *)
Definition authorizationParams (options : value)
  : completion (list (string * value)) :=
  let params := [] in
  display <- get options "display" ;;
  let params :=
    if truthy display then assign "display" display params else params in
  authType <- get options "authType" ;;
  let params :=
    if truthy authType then assign "auth_type" authType params else params in
  authNonce <- get options "authNonce" ;;
  let params :=
    if truthy authNonce then assign "auth_nonce" authNonce params
    else params in
  Normal params.

(** *** The operations

    The collaborators are parameters: [JSON.parse], Node's [url] and
    [crypto] modules, the request and options objects of the framework, and
    the OAuth 2.0 engine the strategy inherits from. *)

Section Operations.

(** [JSON.parse] on a string; [None] when it throws a SyntaxError. *)
Variable JSON_parse : string -> option value.

(** [uri.parse] and [uri.format]. *)
Variable url_others : Type.
Variable uri_parse : string -> urlObject url_others.
Variable uri_format : urlObject url_others -> string.

(** [crypto.createHmac('sha256', key).update(data).digest('hex')] *)
Variable hmac_sha256_hex : string -> string -> string.

(** The request, of which only [req.query] is read (absent, or an object
    with string members), and the options of [authenticate]. *)
Variable Request Options : Type.
Variable query : Request -> option (list (string * string)).

(** [OAuth2Strategy.prototype.parseErrorResponse] and what it returns. *)
Variable TokenError : Type.
Variable OAuth2Strategy_parseErrorResponse :
  string -> number -> completion TokenError.

(** [this._oauth2.get(url, accessToken, callback)]: the [err] and [body]
    the engine calls back with. *)
Variable oauth2_get : string -> string -> option transport_error * string.

(** What the strategy does to the world around it. *)
Inductive event : Type :=
| EvError (e : APIError.t)
| EvAuthenticate (req : Request) (options : Options)
| EvGet (url : string) (accessToken : string)
| EvDone (err : option error) (profile : option (list (string * value)))
| EvLog (v : value).

(** A run: the events in order, and how it ended. *)
Definition Eff (A : Type) : Type := (list event * completion A)%type.

Definition ret {A} (a : A) : Eff A := ([], Normal a).

Definition bind {A B} (m : Eff A) (k : A -> Eff B) : Eff B :=
  match m with
  | (tr, Normal a) => let '(tr', r) := k a in (tr ++ tr', r)
  | (tr, Throw e) => (tr, Throw e)
  end.

Definition lift {A} (c : completion A) : Eff A := ([], c).

Definition emit (e : event) : Eff unit := ([e], Normal tt).

Local Notation "x <~ c ;; k" := (bind c (fun x => k))
  (at level 61, c at next level, right associativity).
Local Notation "c ;;; k" := (bind c (fun _ => k))
  (at level 61, right associativity).

(** ToString of a member of the query. *)
Definition ToString (o : option string) : string :=
  match o with
  | Some s => s
  | None => "undefined"
  end.

(** [Strategy.prototype.authenticate] *)
Definition authenticate (req : Request) (options : Options) : Eff unit :=
  let delegate := emit (EvAuthenticate req options) in
  match query req with
  | Some q =>
      if truthy_str (assoc "error_code" q)
         && negb (truthy_str (assoc "error" q))
      then
        emit (EvError
                (APIError.ZaloAPIError
                   (of_option (assoc "error_message" q))
                   (VNumber (parseInt10 (ToString (assoc "error_code" q))))))
      else delegate
  | None => delegate
  end.

(** The URL [userProfile] asks for. *)
Definition userProfile_url (self : t) (accessToken : string) : string :=
  let url := uri_parse (_profileURL self) in
  let url :=
    if _enableProof self then
      let proof := hmac_sha256_hex (_clientSecret self) accessToken in
      set_search url (amp url)
    else url in
  let url :=
    match _profileFields self with
    | Some profileFields =>
        let fields := _convertProfileFields profileFields in
        if fields =? "" then url
        else set_search url (amp url ++ "fields=" ++ fields)
    | None => url
    end in
  uri_format url.

(** The callback [userProfile] gives to [get]. *)
Definition userProfile_callback (err : option transport_error)
  (body : string) : Eff unit :=
  match err with
  | Some err =>
      let json :=
        if truthy_str (data err) then
          match JSON_parse (ToString (data err)) with
          | Some j => j
          | None => VUndefined
          end
        else VUndefined in
      let wrap :=
        emit (EvDone
                (Some (InternalOAuthError "Failed to fetch user profile" err))
                None) in
      if truthy json then
        e <~ lift (get json "error") ;;
        if truthy e && (typeof e =? "object") then
          message <~ lift (get e "message") ;;
          code <~ lift (get e "code") ;;
          emit (EvDone (Some (APIError (APIError.ZaloAPIError message code)))
                       None)
        else wrap
      else wrap
  | None =>
      match JSON_parse body with
      | None =>
          emit (EvDone (Some (Error "Failed to parse user profile")) None)
      | Some json =>
          profile <~ lift (Profile.parse JSON_parse json) ;;
          let profile := assign "provider" (VString "facebook") profile in
          let profile := assign "_raw" (VString body) profile in
          let profile := assign "_json" json profile in
          emit (EvDone None (Some profile))
      end
  end.

(** [Strategy.prototype.userProfile] *)
Definition userProfile (self : t) (accessToken : string) : Eff unit :=
  let url := userProfile_url self accessToken in
  emit (EvGet url accessToken) ;;;
  let '(err, body) := oauth2_get url accessToken in
  userProfile_callback err body.

(** [Strategy.prototype.parseErrorResponse] *)
Definition parseErrorResponse (body : string) (status : number)
  : Eff (APIError.t + TokenError) :=
  json <~ lift (Profile.JSON_parse_or_throw JSON_parse body) ;;
  emit (EvLog json) ;;;
  e <~ lift (get json "error") ;;
  if truthy e && (typeof e =? "object") then
    message <~ lift (get e "message") ;;
    code <~ lift (get e "code") ;;
    ret (inl (APIError.ZaloAPIError message code))
  else
    r <~ lift (OAuth2Strategy_parseErrorResponse body status) ;;
    ret (inr r).

End Operations.

Arguments EvError {Request Options} e.
Arguments EvAuthenticate {Request Options} req options.
Arguments EvGet {Request Options} url accessToken.
Arguments EvDone {Request Options} err profile.
Arguments EvLog {Request Options} v.

End Strategy.

(** ** Concrete collaborators

    Small stand-ins for the parameters above, on which the operations can be
    run: a reader for a fragment of JSON, a URL split at its query, and an
    engine that answers with a fixed response. *)

Module Demo.

Definition quote : ascii := "034"%char.
Definition backslash : ascii := "092"%char.

(** The characters JSON allows between tokens. *)
Definition is_json_space (c : ascii) : bool :=
  let n := nat_of_ascii c in
  ((n =? 32) || (n =? 9) || (n =? 10) || (n =? 13))%nat.

Fixpoint skip (s : string) : string :=
  match s with
  | String c rest => if is_json_space c then skip rest else s
  | EmptyString => s
  end.

(** [s] without the prefix [p]. *)
Fixpoint after (p s : string) : option string :=
  match p, s with
  | EmptyString, _ => Some s
  | String a p', String b s' => if Ascii.eqb a b then after p' s' else None
  | String _ _, EmptyString => None
  end.

(** The characters of a string literal up to its closing quote; escapes and
    control characters are outside the fragment. *)
Fixpoint read_chars (s : string) : option (string * string) :=
  match s with
  | EmptyString => None
  | String c rest =>
      if Ascii.eqb c quote then Some ("", rest)
      else if Ascii.eqb c backslash || (nat_of_ascii c <? 32)%nat then None
      else match read_chars rest with
           | Some (body, rest') => Some (String c body, rest')
           | None => None
           end
  end.

(** An integer literal: an optional minus, then [0] or digits that do not
    start with [0]; a fraction or an exponent is outside the fragment. *)
Definition read_integer (s : string) : option (value * string) :=
  let '(neg, s) :=
    match s with
    | String "-"%char rest => (true, rest)
    | _ => (false, s)
    end in
  let leading_zero :=
    match s with
    | String "0"%char (String c _) =>
        match digit_of c with Some _ => true | None => false end
    | _ => false
    end in
  let fix rest_of (s : string) : string :=
    match s with
    | String c rest =>
        match digit_of c with Some _ => rest_of rest | None => s end
    | EmptyString => s
    end in
  match digits s 0%Z false with
  | (n, true) =>
      let rest := rest_of s in
      let stops :=
        match rest with
        | String c _ =>
            negb (Ascii.eqb c "."%char || Ascii.eqb c "e"%char
                  || Ascii.eqb c "E"%char)
        | EmptyString => true
        end in
      if negb leading_zero && stops
      then Some (VNumber (number_of_Z neg (if neg then (- n)%Z else n)), rest)
      else None
  | (_, false) => None
  end.

(** A value, then the rest of the input. [read_items] and [read_members]
    continue an array and an object after an element. *)
Fixpoint read_value (fuel : nat) (s : string) : option (value * string) :=
  match fuel with
  | O => None
  | S fuel =>
      match skip s with
      | EmptyString => None
      | String c rest as s' =>
          if Ascii.eqb c "n"%char then
            match after "null" s' with
            | Some r => Some (VNull, r)
            | None => None
            end
          else if Ascii.eqb c "t"%char then
            match after "true" s' with
            | Some r => Some (VBool true, r)
            | None => None
            end
          else if Ascii.eqb c "f"%char then
            match after "false" s' with
            | Some r => Some (VBool false, r)
            | None => None
            end
          else if Ascii.eqb c quote then
            match read_chars rest with
            | Some (str, r) => Some (VString str, r)
            | None => None
            end
          else if Ascii.eqb c "["%char then
            match skip rest with
            | String "]"%char r => Some (VArray [], r)
            | _ =>
                match read_value fuel rest with
                | Some (v, r) => read_items fuel r [v]
                | None => None
                end
            end
          else if Ascii.eqb c "{"%char then
            match skip rest with
            | String "}"%char r => Some (VObject [], r)
            | _ => read_member fuel rest []
            end
          else read_integer s'
      end
  end

with read_items (fuel : nat) (s : string) (acc : list value)
  : option (value * string) :=
  match fuel with
  | O => None
  | S fuel =>
      match skip s with
      | String "]"%char r => Some (VArray acc, r)
      | String ","%char r =>
          match read_value fuel r with
          | Some (v, r') => read_items fuel r' (acc ++ [v])
          | None => None
          end
      | _ => None
      end
  end

with read_member (fuel : nat) (s : string) (acc : list (string * value))
  : option (value * string) :=
  match fuel with
  | O => None
  | S fuel =>
      match skip s with
      | String c r =>
          if Ascii.eqb c quote then
            match read_chars r with
            | Some (k, r') =>
                match skip r' with
                | String ":"%char r'' =>
                    match read_value fuel r'' with
                    | Some (v, r3) =>
                        let acc := assign k v acc in
                        match skip r3 with
                        | String "}"%char r4 => Some (VObject acc, r4)
                        | String ","%char r4 => read_member fuel r4 acc
                        | _ => None
                        end
                    | None => None
                    end
                | _ => None
                end
            | None => None
            end
          else None
      | EmptyString => None
      end
  end.

(** [JSON.parse] on the fragment. *)
Definition JSON_parse (s : string) : option value :=
  match read_value (2 * String.length s + 2) s with
  | Some (v, rest) => if skip rest =? "" then Some v else None
  | None => None
  end.

(** A string literal of JSON. *)
Definition lit (s : string) : string :=
  String quote (s ++ String quote "").

(** A URL is split at its first question mark; [others] is what comes
    before it. *)
Fixpoint split_query (s : string) : string * option string :=
  match s with
  | EmptyString => ("", None)
  | String c rest =>
      if Ascii.eqb c "?"%char then ("", Some s)
      else let '(base, q) := split_query rest in (String c base, q)
  end.

Definition uri_parse (s : string) : Strategy.urlObject string :=
  let '(base, q) := split_query s in
  {| Strategy.search := q; Strategy.others := base |}.

Definition uri_format (u : Strategy.urlObject string) : string :=
  Strategy.others u ++
  match Strategy.search u with
  | Some (String c _ as q) => if Ascii.eqb c "?"%char then q else "?" ++ q
  | _ => ""
  end.

(** A stand-in for the digest: it keeps its two arguments readable. *)
Definition digest (key data : string) : string :=
  "hmac(" ++ key ++ "," ++ data ++ ")".

(** A request is its query; the engine's own error parser returns [null]
    and its [get] answers with a fixed response. *)
Definition Request : Type := option (list (string * string)).
Definition query (req : Request) : option (list (string * string)) := req.
Definition default_parseErrorResponse (body : string) (status : number)
  : completion unit := Normal tt.
Definition respond (err : option Strategy.transport_error) (body : string)
  (url accessToken : string) : option Strategy.transport_error * string :=
  (err, body).

Definition authenticate :=
  Strategy.authenticate Request unit query.
Definition userProfile_url :=
  Strategy.userProfile_url string uri_parse uri_format digest.
Definition userProfile err body :=
  Strategy.userProfile JSON_parse string uri_parse uri_format digest
    Request unit (respond err body).
Definition parseErrorResponse :=
  Strategy.parseErrorResponse JSON_parse Request unit unit
    default_parseErrorResponse.

(** The options that give a secret, a field list and the proof switch, and
    the strategy made from them. *)
Definition options (fields : option (list string)) (proof : bool)
  : Strategy.options :=
  {| Strategy.graphAPIVersion := None;
     Strategy.authorizationURL := None;
     Strategy.tokenURL := None;
     Strategy.scopeSeparator := None;
     Strategy.profileURL := None;
     Strategy.profileFields := fields;
     Strategy.enableProof := proof;
     Strategy.clientSecret := "shhh-its-a-secret" |}.

Definition strategy (fields : option (list string)) (proof : bool)
  : Strategy.t :=
  Strategy.Strategy (options fields proof).

(** The body of an error response of the provider, and its error. *)
Definition invalid_token_body : string :=
  "{" ++ lit "error" ++ ":{" ++ lit "message" ++ ":"
  ++ lit "Invalid token" ++ "," ++ lit "code" ++ ":190}}".

Definition invalid_token : APIError.t :=
  APIError.ZaloAPIError (VString "Invalid token")
                        (VNumber (number_of_Z false 190)).

(** The body of a profile response. *)
Definition profile_body : string :=
  "{" ++ lit "id" ++ ":" ++ lit "42" ++ "," ++ lit "name" ++ ":"
  ++ lit "An" ++ "}".

(** An engine parser that reads the body itself: it throws where reading
    the body throws, and returns [null] otherwise. *)
Definition reading_parseErrorResponse (body : string) (status : number)
  : completion unit :=
  match JSON_parse body with
  | Some json => _ <- get json "error" ;; Normal tt
  | None => Throw SyntaxError
  end.

(** The options of a pop-up dialog that asks again for the password. *)
Definition popup_options : value :=
  VObject [("display", VString "popup");
           ("authType", VString "reauthenticate");
           ("scope", VString "email");
           ("authNonce", VString "")].

(** A profile URL that has a query of its own. *)
Definition options_with_query (fields : option (list string)) (proof : bool)
  : Strategy.options :=
  {| Strategy.graphAPIVersion := Some "v4";
     Strategy.authorizationURL := None;
     Strategy.tokenURL := None;
     Strategy.scopeSeparator := None;
     Strategy.profileURL := Some "https://graph.zalo.me/v2.0/me?locale=vi";
     Strategy.profileFields := fields;
     Strategy.enableProof := proof;
     Strategy.clientSecret := "shhh-its-a-secret" |}.

End Demo.

(** ** What the specification says, in its own words *)

Module Spec.

(** The fixed table of provider field names; a name outside it is kept. *)
Definition provider_field (f : string) : string :=
  if f =? "id" then "id"
  else if f =? "displayName" then "name"
  else if f =? "gender" then "gender"
  else if f =? "birthday" then "birthday"
  else if f =? "photos" then "picture"
  else f.

(** The value of [fields]: the translated names joined with commas. *)
Definition fields_parameter (allow_list : list string) : string :=
  join "," (List.map provider_field allow_list).

(** [photos = [{value: u}]] *)
Definition photos_of (u : value) : value :=
  VArray [VObject [("value", u)]].

(** A raw profile whose [picture] is the plain string [u] is normalized to
    a profile with [photos = [{value: u}]]. *)
Definition plain_picture_rule (JSON_parse : string -> option value)
  (json : value) (u : string) : Prop :=
  get json "picture" = Normal (VString u) ->
  exists profile,
    Profile.parse JSON_parse json = Normal profile /\
    lookup "photos" profile = Some (photos_of (VString u)).

(** A query with an [error_code] parameter and no [error] parameter. *)
Definition error_code_without_error (q : list (string * string)) : Prop :=
  Strategy.assoc "error_code" q <> None /\ Strategy.assoc "error" q = None.

End Spec.

(** A raw profile as [JSON.parse] decodes it and the normalizer reads it:
    anything but [null], [undefined] and a string still to be parsed. *)
Definition decoded (json : value) : bool :=
  match json with
  | VUndefined | VNull | VString _ => false
  | _ => true
  end.

(** The four members every normalized profile starts with. *)
Definition mapped_members (json : value) : list (string * value) :=
  [ ("id", member json "id");
    ("displayName", member json "name");
    ("birthday", member json "birthday");
    ("gender", member json "gender") ].

(** [picture] is an object (or array) with a truthy [data]. *)
Definition nested_picture (picture : value) : bool :=
  (typeof picture =? "object") && truthy (member picture "data").

(** The error body of a transport error parses as JSON that holds a
    structured [error] member [e]: [err.data] is a non-empty string whose
    parse has a truthy [error] of type object. *)
Definition structured_error (JSON_parse : string -> option value)
  (err : Strategy.transport_error) (e : value) : Prop :=
  exists d json,
    Strategy.data err = Some d /\ d <> "" /\
    JSON_parse d = Some json /\
    get json "error" = Normal e /\
    truthy e = true /\ typeof e = "object".

(** A name that [Object.prototype] defines. *)
Definition inherited (f : string) : bool :=
  match Strategy.assoc f Strategy.Object_prototype with
  | Some _ => true
  | None => false
  end.

(** The URL object after the proof step of [userProfile]. *)
Definition after_proof_step {R} (enableProof : bool)
  (u : Strategy.urlObject R) : Strategy.urlObject R :=
  if enableProof then Strategy.set_search u (Strategy.amp u) else u.

(** The decimal text of a natural number. *)
Definition decimal (n : nat) : string :=
  DecimalString.NilEmpty.string_of_uint (Nat.to_uint n).

(** The string starts with a decimal digit. *)
Definition starts_with_digit (s : string) : bool :=
  match s with
  | String c _ => match digit_of c with Some _ => true | None => false end
  | EmptyString => false
  end.

(** The values [parse] accepts after decoding: anything but [null] and
    [undefined]. *)
Definition nullish (v : value) : bool :=
  match v with
  | VUndefined | VNull => true
  | _ => false
  end.

(** The three parameters [authorizationParams] can set, each with the
    option it comes from. *)
Definition param_of (options : value) (option : string) (param : string)
  : list (string * value) :=
  if truthy (member options option) then [(param, member options option)]
  else [].

(** * Properties *)

(** A test [s =? ""] on a string known not to be empty. *)
Ltac not_empty s :=
  let E := fresh "E" in
  destruct (s =? "") eqn:E; [apply String.eqb_eq in E; contradiction |].

(** ** Objects and members *)

Lemma lookup_assign_same (k : string) (v : value) props :
  lookup k (assign k v props) = Some v.
Proof.
  induction props as [| [k' v'] rest IH]; simpl.
  - now rewrite String.eqb_refl.
  - destruct (k' =? k) eqn:E; simpl.
    + now rewrite String.eqb_refl.
    + now rewrite E.
Qed.

Lemma lookup_assign_other (k k' : string) (v : value) props :
  k <> k' -> lookup k (assign k' v props) = lookup k props.
Proof.
  intros Hne.
  induction props as [| [k0 v0] rest IH]; simpl.
  - destruct (k' =? k) eqn:E; [apply String.eqb_eq in E; congruence | easy].
  - destruct (k0 =? k') eqn:E; simpl.
    + apply String.eqb_eq in E. subst k0.
      destruct (k' =? k) eqn:E'; [apply String.eqb_eq in E'; congruence | easy].
    + now rewrite IH.
Qed.

Lemma get_truthy (v : value) (k : string) :
  truthy v = true -> get v k = Normal (member v k).
Proof.
  destruct v; simpl; try discriminate; unfold member; simpl; reflexivity.
Qed.

Lemma get_decoded (json : value) (k : string) :
  decoded json = true -> get json k = Normal (member json k).
Proof.
  destruct json; simpl; try discriminate; unfold member; simpl; reflexivity.
Qed.

(** ** The profile normalizer *)

Section ProfileFacts.

Variable JSON_parse : string -> option value.

Local Abbreviation parse := (Profile.parse JSON_parse).

(** The normalizer, in closed form, on a decoded raw profile. *)
Lemma parse_decoded (json : value) :
  decoded json = true ->
  parse json =
  Normal
    (let picture := member json "picture" in
     if truthy picture then
       if nested_picture picture then
         mapped_members json ++
         [("photos",
           Spec.photos_of (member (member picture "data") "url"))]
       else mapped_members json ++ [("photos", Spec.photos_of picture)]
     else mapped_members json).
Proof.
  intros Hd. unfold Profile.parse.
  assert (Hj : match json with
               | VString s => Profile.JSON_parse_or_throw JSON_parse s
               | _ => Normal json
               end = Normal json) by (destruct json; try discriminate; reflexivity).
  rewrite Hj. cbn [cbind].
  rewrite !(get_decoded json) by assumption. cbn [cbind].
  set (picture := member json "picture").
  destruct (truthy picture) eqn:Ht; [| reflexivity].
  unfold nested_picture.
  destruct (typeof picture =? "object") eqn:Ho; cbn [cbind andb].
  - rewrite (get_truthy picture) by assumption. cbn [cbind].
    destruct (truthy (member picture "data")) eqn:Hdata.
    + rewrite (get_truthy (member picture "data")) by assumption.
      reflexivity.
    + reflexivity.
  - reflexivity.
Qed.

(** C9: for every decoded raw profile, the normalizer succeeds and maps
    the members exactly: [id] from [id], [displayName] from [name],
    [birthday] from [birthday], [gender] from [gender]; the result has no
    member besides these four and, possibly, [photos]. *)
Theorem parse_maps_members (json : value) :
  decoded json = true ->
  exists profile,
    parse json = Normal profile /\
    lookup "id" profile = Some (member json "id") /\
    lookup "displayName" profile = Some (member json "name") /\
    lookup "birthday" profile = Some (member json "birthday") /\
    lookup "gender" profile = Some (member json "gender") /\
    (forall k, In k (List.map fst profile) ->
               In k ["id"; "displayName"; "birthday"; "gender"; "photos"]).
Proof.
  intros Hd. rewrite (parse_decoded json Hd). eexists. split; [reflexivity|].
  cbv zeta.
  destruct (truthy (member json "picture"));
    [destruct (nested_picture (member json "picture")) |];
    (repeat split; try reflexivity; cbn; intros k Hk; intuition).
Qed.

(** C2 (amended): for every decoded raw profile, if [picture] is truthy and
    is an object with a truthy [data] member, the result has
    [photos = [{value: picture.data.url}]]; else if [picture] is truthy, the
    result has [photos = [{value: picture}]]; else ([picture] is absent or
    falsy, as the empty string is) the result has no [photos] member. *)
Theorem parse_photo_rule (json : value) :
  decoded json = true ->
  exists profile,
    parse json = Normal profile /\
    (truthy (member json "picture") = true ->
     nested_picture (member json "picture") = true ->
     lookup "photos" profile =
     Some (Spec.photos_of
             (member (member (member json "picture") "data") "url"))) /\
    (truthy (member json "picture") = true ->
     nested_picture (member json "picture") = false ->
     lookup "photos" profile =
     Some (Spec.photos_of (member json "picture"))) /\
    (truthy (member json "picture") = false ->
     lookup "photos" profile = None).
Proof.
  intros Hd. rewrite (parse_decoded json Hd). eexists. split; [reflexivity|].
  cbv zeta.
  destruct (truthy (member json "picture"));
    [destruct (nested_picture (member json "picture")) |];
    (repeat split; intros; try discriminate; reflexivity).
Qed.

(** The three shapes of the rule: a nested URL, a plain non-empty string,
    and no picture. *)
Corollary parse_nested_url (props : list (string * value)) (u : value) rest :
  lookup "picture" props
  = Some (VObject (("data", VObject [("url", u)]) :: rest)) ->
  exists profile,
    parse (VObject props) = Normal profile /\
    lookup "photos" profile = Some (Spec.photos_of u).
Proof.
  intros Hp. rewrite (parse_decoded (VObject props) eq_refl).
  eexists. split; [reflexivity|].
  unfold member. cbn. rewrite Hp. reflexivity.
Qed.

Corollary parse_plain_string (props : list (string * value)) (u : string) :
  lookup "picture" props = Some (VString u) -> u <> "" ->
  exists profile,
    parse (VObject props) = Normal profile /\
    lookup "photos" profile = Some (Spec.photos_of (VString u)).
Proof.
  intros Hp Hu. rewrite (parse_decoded (VObject props) eq_refl).
  eexists. split; [reflexivity|].
  unfold member. cbn. rewrite Hp. cbn.
  not_empty u. reflexivity.
Qed.

Corollary parse_no_picture (props : list (string * value)) :
  lookup "picture" props = None ->
  exists profile,
    parse (VObject props) = Normal profile /\
    lookup "photos" profile = None.
Proof.
  intros Hp. rewrite (parse_decoded (VObject props) eq_refl).
  eexists. split; [reflexivity|].
  unfold member. cbn. rewrite Hp. reflexivity.
Qed.

(** A string is parsed first, once, and then read as any decoded value. *)
Lemma parse_string (s : string) (json : value) :
  JSON_parse s = Some json -> decoded json = true ->
  parse (VString s) = parse json.
Proof.
  intros Hs Hd. unfold Profile.parse at 1. unfold Profile.JSON_parse_or_throw.
  rewrite Hs. cbn [cbind]. unfold Profile.parse.
  destruct json; try discriminate; reflexivity.
Qed.

End ProfileFacts.

Lemma parse_maps_members_witness :
  let json := VObject [("id", VString "42"); ("name", VString "An")] in
  decoded json = true /\
  exists profile,
    Profile.parse Demo.JSON_parse json = Normal profile /\
    lookup "id" profile = Some (member json "id") /\
    lookup "displayName" profile = Some (member json "name") /\
    lookup "birthday" profile = Some (member json "birthday") /\
    lookup "gender" profile = Some (member json "gender") /\
    (forall k, In k (List.map fst profile) ->
               In k ["id"; "displayName"; "birthday"; "gender"; "photos"]).
Proof.
  split; [reflexivity |].
  apply (parse_maps_members Demo.JSON_parse). reflexivity.
Defined.

Lemma parse_photo_rule_witness :
  let json :=
    VObject [("id", VString "42");
             ("picture",
              VObject [("data", VObject [("url", VString "http://p/1.jpg")])])]
  in
  decoded json = true /\
  exists profile,
    Profile.parse Demo.JSON_parse json = Normal profile /\
    (truthy (member json "picture") = true ->
     nested_picture (member json "picture") = true ->
     lookup "photos" profile =
     Some (Spec.photos_of
             (member (member (member json "picture") "data") "url"))) /\
    (truthy (member json "picture") = true ->
     nested_picture (member json "picture") = false ->
     lookup "photos" profile =
     Some (Spec.photos_of (member json "picture"))) /\
    (truthy (member json "picture") = false ->
     lookup "photos" profile = None).
Proof.
  split; [reflexivity |].
  apply (parse_photo_rule Demo.JSON_parse). reflexivity.
Defined.

(** C2, as stated, fails on the plain string that is empty: [picture]
    exists, and the result has no [photos]. *)
Lemma plain_picture_rule_fails_on_empty_string :
  ~ Spec.plain_picture_rule Demo.JSON_parse
      (VObject [("id", VString "42"); ("picture", VString "")]) "".
Proof.
  intros H. destruct (H eq_refl) as (profile & Hparse & Hphotos).
  cbv in Hparse. injection Hparse as <-. discriminate Hphotos.
Qed.

(** ** The strategy *)

Section StrategyFacts.

Variable JSON_parse : string -> option value.
Variable url_others : Type.
Variable uri_parse : string -> Strategy.urlObject url_others.
Variable uri_format : Strategy.urlObject url_others -> string.
Variable hmac_sha256_hex : string -> string -> string.
Variable Request Options : Type.
Variable query : Request -> option (list (string * string)).
Variable TokenError : Type.
Variable OAuth2Strategy_parseErrorResponse :
  string -> number -> completion TokenError.
Variable oauth2_get :
  string -> string -> option Strategy.transport_error * string.

Local Abbreviation event := (Strategy.event Request Options).
Local Abbreviation authenticate :=
  (Strategy.authenticate Request Options query).
Local Abbreviation userProfile_url :=
  (Strategy.userProfile_url url_others uri_parse uri_format hmac_sha256_hex).
Local Abbreviation userProfile_callback :=
  (Strategy.userProfile_callback JSON_parse Request Options).
Local Abbreviation userProfile :=
  (Strategy.userProfile JSON_parse url_others uri_parse uri_format
     hmac_sha256_hex Request Options oauth2_get).
Local Abbreviation parseErrorResponse :=
  (Strategy.parseErrorResponse JSON_parse Request Options TokenError
     OAuth2Strategy_parseErrorResponse).

(** *** [authenticate] *)

(** C3 (amended): for every request whose query has a non-empty
    [error_code] and no or an empty [error], [authenticate] fails with the
    ProviderError built from [error_message] and [parseInt(error_code, 10)]
    and does not invoke the engine's [authenticate]; for every other
    request it does nothing but delegate to the engine. *)
Theorem authenticate_provider_error (req : Request) (options : Options) :
  (forall q code,
      query req = Some q ->
      Strategy.assoc "error_code" q = Some code -> code <> "" ->
      truthy_str (Strategy.assoc "error" q) = false ->
      authenticate req options =
      ([Strategy.EvError
          (APIError.ZaloAPIError
             (of_option (Strategy.assoc "error_message" q))
             (VNumber (parseInt10 code)))],
       Normal tt)) /\
  ((forall q,
      query req = Some q ->
      truthy_str (Strategy.assoc "error_code" q) = false \/
      truthy_str (Strategy.assoc "error" q) = true) ->
   authenticate req options =
   ([Strategy.EvAuthenticate req options], Normal tt)).
Proof.
  unfold Strategy.authenticate. split.
  - intros q code Hq Hcode Hne Herr. rewrite Hq, Hcode, Herr. cbn.
    not_empty code. reflexivity.
  - intros H. destruct (query req) as [q|]; [| reflexivity].
    destruct (H q eq_refl) as [-> | ->]; cbn; [reflexivity|].
    now rewrite andb_false_r.
Qed.

(** *** [userProfile] *)

Lemma callback_structured (err : Strategy.transport_error) (body : string)
  (e : value) :
  structured_error JSON_parse err e ->
  userProfile_callback (Some err) body =
  ([Strategy.EvDone
      (Some (Strategy.APIError
               (APIError.ZaloAPIError (member e "message") (member e "code"))))
      None],
   Normal tt).
Proof.
  intros (d & json & Hd & Hne & Hparse & Hget & Ht & Ho).
  unfold Strategy.userProfile_callback. rewrite Hd. cbn.
  not_empty d. cbn. rewrite Hparse.
  assert (Hj : truthy json = true).
  { destruct json; cbn in Hget; try discriminate;
      try (injection Hget as <-; discriminate Ht); reflexivity. }
  rewrite Hj, Hget. cbn. rewrite Ht, Ho. cbn.
  rewrite !(get_truthy e) by assumption. reflexivity.
Qed.

Lemma callback_unstructured (err : Strategy.transport_error) (body : string) :
  (forall e, ~ structured_error JSON_parse err e) ->
  userProfile_callback (Some err) body =
  ([Strategy.EvDone
      (Some (Strategy.InternalOAuthError "Failed to fetch user profile" err))
      None],
   Normal tt).
Proof.
  intros Hnot. unfold Strategy.userProfile_callback.
  destruct (Strategy.data err) as [d|] eqn:Hd; cbn; [| reflexivity].
  destruct (d =? "") eqn:E; cbn; [reflexivity|].
  destruct (JSON_parse d) as [json|] eqn:Hparse; cbn; [| reflexivity].
  destruct (truthy json) eqn:Hj; [| reflexivity].
  rewrite (get_truthy json) by assumption. cbn.
  destruct (truthy (member json "error")) eqn:Ht; cbn; [| reflexivity].
  destruct (typeof (member json "error") =? "object") eqn:Ho; [| reflexivity].
  exfalso. apply (Hnot (member json "error")).
  exists d, json. repeat split; try assumption.
  - intros ->. discriminate E.
  - now apply get_truthy.
  - now apply String.eqb_eq.
Qed.

Lemma unparsable_not_structured (err : Strategy.transport_error) (d : string) :
  Strategy.data err = Some d -> JSON_parse d = None ->
  forall e, ~ structured_error JSON_parse err e.
Proof.
  intros Hd Hnone e (d' & json & Hd' & _ & Hparse & _).
  rewrite Hd in Hd'. injection Hd' as <-. congruence.
Qed.

Lemma userProfile_unfold (self : Strategy.t) (accessToken : string) :
  userProfile self accessToken =
  (Strategy.EvGet (userProfile_url self accessToken) accessToken ::
   fst (userProfile_callback
          (fst (oauth2_get (userProfile_url self accessToken) accessToken))
          (snd (oauth2_get (userProfile_url self accessToken) accessToken))),
   snd (userProfile_callback
          (fst (oauth2_get (userProfile_url self accessToken) accessToken))
          (snd (oauth2_get (userProfile_url self accessToken) accessToken)))).
Proof.
  unfold Strategy.userProfile, Strategy.bind, Strategy.emit.
  destruct (oauth2_get _ _) as [err body]. cbn [fst snd].
  destruct (Strategy.userProfile_callback _ _ _ err body) as [tr r].
  reflexivity.
Qed.

(** C4: for every transport error the engine's GET calls back with,
    [userProfile] calls [done] exactly once, with an error: the
    ProviderError of [message] and [code] when the error body parses as JSON
    holding a structured [error], and otherwise the internal OAuth error
    that wraps the transport error; an error body that does not parse is
    not reported and ends in that wrap. *)
Theorem userProfile_transport_error (self : Strategy.t) (accessToken : string)
  (err : Strategy.transport_error) (body : string) :
  oauth2_get (userProfile_url self accessToken) accessToken
  = (Some err, body) ->
  (forall e,
      structured_error JSON_parse err e ->
      userProfile self accessToken =
      ([Strategy.EvGet (userProfile_url self accessToken) accessToken;
        Strategy.EvDone
          (Some (Strategy.APIError
                   (APIError.ZaloAPIError (member e "message")
                                          (member e "code"))))
          None],
       Normal tt)) /\
  ((forall e, ~ structured_error JSON_parse err e) ->
   userProfile self accessToken =
   ([Strategy.EvGet (userProfile_url self accessToken) accessToken;
     Strategy.EvDone
       (Some (Strategy.InternalOAuthError "Failed to fetch user profile" err))
       None],
    Normal tt)) /\
  (forall d,
      Strategy.data err = Some d -> JSON_parse d = None ->
      userProfile self accessToken =
      ([Strategy.EvGet (userProfile_url self accessToken) accessToken;
        Strategy.EvDone
          (Some (Strategy.InternalOAuthError "Failed to fetch user profile"
                                             err))
          None],
       Normal tt)).
Proof.
  intros Hget. rewrite userProfile_unfold, Hget. cbn [fst snd].
  split; [| split].
  - intros e He. now rewrite (callback_structured err body e He).
  - intros Hnot. now rewrite (callback_unstructured err body Hnot).
  - intros d Hd Hnone.
    now rewrite (callback_unstructured err body
                   (unparsable_not_structured err d Hd Hnone)).
Qed.

(** Where the success path reports through [done]: for every body that is
    not JSON, received without a transport error, [userProfile] ends
    normally after calling [done] exactly once, with the generic parse
    error, and nothing is thrown; for every body that parses to a value
    other than [null] or a string, it ends normally after calling [done]
    exactly once, with a profile. *)
Lemma userProfile_success_path (self : Strategy.t) (accessToken : string)
  (body : string) :
  oauth2_get (userProfile_url self accessToken) accessToken = (None, body) ->
  (JSON_parse body = None ->
   userProfile self accessToken =
   ([Strategy.EvGet (userProfile_url self accessToken) accessToken;
     Strategy.EvDone (Some (Strategy.Error "Failed to parse user profile"))
                     None],
    Normal tt)) /\
  (forall json,
      JSON_parse body = Some json -> decoded json = true ->
      exists profile,
        userProfile self accessToken =
        ([Strategy.EvGet (userProfile_url self accessToken) accessToken;
          Strategy.EvDone None (Some profile)],
         Normal tt)).
Proof.
  intros Hget. rewrite userProfile_unfold, Hget. cbn [fst snd].
  unfold Strategy.userProfile_callback. split.
  - intros Hnone. now rewrite Hnone.
  - intros json Hjson Hd. rewrite Hjson, (parse_decoded JSON_parse json Hd).
    cbn. eexists. reflexivity.
Qed.

(** C8 (what the code does instead): only [JSON.parse(body)] is inside the
    [try]. Without a transport error, on a body that is the JSON of [null],
    or of a string that is not itself JSON, the normalizer that follows
    throws: [userProfile] ends with that exception right after the GET, and
    [done] is never called. *)
Theorem userProfile_exception_escapes (self : Strategy.t)
  (accessToken : string) (body : string) :
  oauth2_get (userProfile_url self accessToken) accessToken = (None, body) ->
  (JSON_parse body = Some VNull ->
   userProfile self accessToken =
   ([Strategy.EvGet (userProfile_url self accessToken) accessToken],
    Throw TypeError)) /\
  (forall s,
      JSON_parse body = Some (VString s) -> JSON_parse s = None ->
      userProfile self accessToken =
      ([Strategy.EvGet (userProfile_url self accessToken) accessToken],
       Throw SyntaxError)).
Proof.
  intros Hget. rewrite userProfile_unfold, Hget. cbn [fst snd].
  unfold Strategy.userProfile_callback. split.
  - intros Hnull. rewrite Hnull. reflexivity.
  - intros s Hbody Hs. rewrite Hbody.
    unfold Profile.parse, Profile.JSON_parse_or_throw. rewrite Hs.
    reflexivity.
Qed.

(** The success path on any body at all: it ends with one call of [done],
    or it throws before calling [done] (the normalizer on [null], or on a
    JSON string that is not itself JSON). *)
Lemma userProfile_callback_total (body : string) :
  (exists err profile,
      userProfile_callback None body =
      ([Strategy.EvDone err profile], Normal tt)) \/
  (exists e, userProfile_callback None body = ([], Throw e)).
Proof.
  unfold Strategy.userProfile_callback.
  destruct (JSON_parse body) as [json|].
  - destruct (Profile.parse JSON_parse json) as [profile | e]; cbn.
    + left. do 2 eexists. reflexivity.
    + right. eexists. reflexivity.
  - left. do 2 eexists. reflexivity.
Qed.

(** C7: for every successful profile fetch, the profile handed to [done]
    has the fixed string ['facebook'] as its [provider], which is not the
    name of the strategy, ['zalo']. *)
Theorem userProfile_provider (o : Strategy.options) (accessToken : string)
  (body : string) (json : value) (profile : list (string * value)) :
  oauth2_get (userProfile_url (Strategy.Strategy o) accessToken) accessToken
  = (None, body) ->
  JSON_parse body = Some json ->
  Profile.parse JSON_parse json = Normal profile ->
  exists normalized,
    userProfile (Strategy.Strategy o) accessToken =
    ([Strategy.EvGet (userProfile_url (Strategy.Strategy o) accessToken)
                     accessToken;
      Strategy.EvDone None (Some normalized)],
     Normal tt) /\
    lookup "provider" normalized = Some (VString "facebook") /\
    lookup "_raw" normalized = Some (VString body) /\
    lookup "_json" normalized = Some json /\
    Strategy.name (Strategy.Strategy o) = "zalo" /\
    "facebook" <> Strategy.name (Strategy.Strategy o).
Proof.
  intros Hget Hjson Hparse. rewrite userProfile_unfold, Hget. cbn [fst snd].
  unfold Strategy.userProfile_callback. rewrite Hjson, Hparse. cbn.
  eexists. split; [reflexivity|]. repeat split.
  - rewrite !lookup_assign_other by discriminate. apply lookup_assign_same.
  - rewrite lookup_assign_other by discriminate. apply lookup_assign_same.
  - apply lookup_assign_same.
  - discriminate.
Qed.

(** *** [parseErrorResponse] *)

(** C5 (amended): for every body that parses as JSON to a value other than
    [null], [parseErrorResponse] logs the parsed value and returns the
    ProviderError of [message] and [code] when that value holds a
    structured [error], and otherwise returns what the engine's own
    [parseErrorResponse] returns; a body that is not JSON makes it throw
    the parse error without consulting the engine, and the JSON [null]
    makes it throw a TypeError. *)
Theorem parseErrorResponse_cases (body : string) (status : number) :
  (forall json e,
      JSON_parse body = Some json ->
      get json "error" = Normal e ->
      truthy e = true -> typeof e = "object" ->
      parseErrorResponse body status =
      ([Strategy.EvLog json],
       Normal (inl (APIError.ZaloAPIError (member e "message")
                                          (member e "code"))))) /\
  (forall json e,
      JSON_parse body = Some json ->
      get json "error" = Normal e ->
      truthy e && (typeof e =? "object") = false ->
      parseErrorResponse body status =
      ([Strategy.EvLog json],
       match OAuth2Strategy_parseErrorResponse body status with
       | Normal r => Normal (inr r)
       | Throw x => Throw x
       end)) /\
  (JSON_parse body = None ->
   parseErrorResponse body status = ([], Throw SyntaxError)) /\
  (forall json,
      JSON_parse body = Some json -> json = VNull \/ json = VUndefined ->
      parseErrorResponse body status = ([Strategy.EvLog json], Throw TypeError)).
Proof.
  unfold Strategy.parseErrorResponse, Profile.JSON_parse_or_throw.
  repeat split.
  - intros json e Hparse Hget Ht Ho. rewrite Hparse. cbn. rewrite Hget. cbn.
    rewrite Ht, Ho. cbn. rewrite !(get_truthy e) by assumption. reflexivity.
  - intros json e Hparse Hget Hno. rewrite Hparse. cbn. rewrite Hget. cbn.
    rewrite Hno.
    destruct (OAuth2Strategy_parseErrorResponse body status); reflexivity.
  - intros Hnone. rewrite Hnone. reflexivity.
  - intros json Hparse [-> | ->]; rewrite Hparse; reflexivity.
Qed.

(** X21: When the engine's own parser reads the body the way this one does (a
    SyntaxError on a body that is not JSON, a TypeError on [null]), a body
    without a structured [error] ends as the engine's parser ends on it. *)
Lemma parseErrorResponse_as_engine (body : string) (status : number) :
  (JSON_parse body = None ->
   OAuth2Strategy_parseErrorResponse body status = Throw SyntaxError) ->
  (forall json,
      JSON_parse body = Some json -> get json "error" = Throw TypeError ->
      OAuth2Strategy_parseErrorResponse body status = Throw TypeError) ->
  (forall json e,
      JSON_parse body = Some json -> get json "error" = Normal e ->
      truthy e && (typeof e =? "object") = false) ->
  snd (parseErrorResponse body status) =
  match OAuth2Strategy_parseErrorResponse body status with
  | Normal r => Normal (inr r)
  | Throw x => Throw x
  end.
Proof.
  intros Hsyntax Htype Hplain.
  unfold Strategy.parseErrorResponse, Profile.JSON_parse_or_throw.
  destruct (JSON_parse body) as [json|] eqn:Hparse.
  - cbn. destruct (get json "error") as [e | x] eqn:Hget; cbn.
    + rewrite (Hplain json e eq_refl Hget).
      destruct (OAuth2Strategy_parseErrorResponse body status); reflexivity.
    + assert (x = TypeError) as ->
          by (destruct json; cbn in Hget; congruence).
      now rewrite (Htype json eq_refl Hget).
  - cbn. now rewrite (Hsyntax eq_refl).
Qed.

(** *** [_convertProfileFields] and the [fields] parameter *)

Lemma push_field_translates (fields : list string) (f : string) :
  inherited f = false ->
  Strategy.push_field fields f = fields ++ [Spec.provider_field f].
Proof.
  unfold inherited, Strategy.push_field, Strategy.map_get, Spec.provider_field.
  intros Hi. cbn [Strategy.assoc Strategy.map].
  rewrite !(String.eqb_sym _ f).
  repeat (destruct (f =? _); [reflexivity |]).
  destruct (Strategy.assoc f Strategy.Object_prototype); [discriminate|].
  reflexivity.
Qed.

Lemma fold_push_field (l fields : list string) :
  (forall f, In f l -> inherited f = false) ->
  fold_left Strategy.push_field l fields
  = fields ++ List.map Spec.provider_field l.
Proof.
  revert fields. induction l as [| f l IH]; intros fields Hl; cbn.
  - now rewrite app_nil_r.
  - rewrite push_field_translates by (apply Hl; now left).
    rewrite IH by (intros g Hg; apply Hl; now right).
    now rewrite <- app_assoc.
Qed.

Lemma convert_translates (l : list string) :
  (forall f, In f l -> inherited f = false) ->
  Strategy._convertProfileFields l = Spec.fields_parameter l.
Proof.
  intros Hl. unfold Strategy._convertProfileFields, Spec.fields_parameter.
  now rewrite fold_push_field.
Qed.

(** C6 (amended): for every configured allow-list none of whose names is a
    member of [Object.prototype], the names are translated through the
    fixed table, names outside the table are kept, and the result is joined
    with commas; when that string is not empty, it is appended to the query
    of the profile URL as the [fields] parameter. *)
Theorem userProfile_fields_parameter (self : Strategy.t)
  (accessToken : string) (l : list string) :
  Strategy._profileFields self = Some l ->
  (forall f, In f l -> inherited f = false) ->
  Strategy._convertProfileFields l = Spec.fields_parameter l /\
  (Spec.fields_parameter l <> "" ->
   userProfile_url self accessToken =
   uri_format
     (Strategy.set_search
        (after_proof_step (Strategy._enableProof self)
                          (uri_parse (Strategy._profileURL self)))
        (Strategy.amp
           (after_proof_step (Strategy._enableProof self)
                             (uri_parse (Strategy._profileURL self)))
         ++ "fields=" ++ Spec.fields_parameter l))).
Proof.
  intros Hf Hl. split; [now apply convert_translates|].
  intros Hne. unfold Strategy.userProfile_url, after_proof_step.
  rewrite Hf, (convert_translates l Hl).
  not_empty (Spec.fields_parameter l). reflexivity.
Qed.

(** C10: for every configuration whose allow-list is present and translates
    to the empty string, no [fields] parameter is appended: the URL is the
    one made from the profile URL and the proof step alone, which is the
    URL of the same configuration without an allow-list. *)
Theorem userProfile_url_empty_fields (self self' : Strategy.t)
  (accessToken : string) (l : list string) :
  Strategy._profileFields self = Some l ->
  Strategy._convertProfileFields l = "" ->
  Strategy._profileFields self' = None ->
  Strategy._profileURL self' = Strategy._profileURL self ->
  Strategy._enableProof self' = Strategy._enableProof self ->
  userProfile_url self accessToken =
  uri_format (after_proof_step (Strategy._enableProof self)
                               (uri_parse (Strategy._profileURL self))) /\
  userProfile_url self accessToken = userProfile_url self' accessToken.
Proof.
  intros Hf Hempty Hf' Hurl Hproof.
  unfold Strategy.userProfile_url, after_proof_step.
  rewrite Hf, Hf', Hempty, Hurl, Hproof. cbn. split; reflexivity.
Qed.

(** The allow-lists that translate to the empty string. *)
Lemma push_field_one (fields : list string) (f : string) :
  exists x, Strategy.push_field fields f = fields ++ [x] /\
            (x = "" <-> f = "").
Proof.
  unfold Strategy.push_field, Strategy.map_get.
  cbn [Strategy.assoc Strategy.map Strategy.Object_prototype].
  repeat match goal with
         | |- context [if ?a =? f then _ else _] =>
             let E := fresh "E" in
             destruct (a =? f) eqn:E;
             [ apply String.eqb_eq in E; subst f; eexists;
               split; [reflexivity | split; discriminate] |]
         end.
  exists f. split; [reflexivity | tauto].
Qed.

Lemma fold_push_field_grows (l fields : list string) :
  exists xs, fold_left Strategy.push_field l fields = fields ++ xs /\
             length xs = length l.
Proof.
  revert fields. induction l as [| f l IH]; intros fields; cbn.
  - exists []. now rewrite app_nil_r.
  - destruct (push_field_one fields f) as (x & -> & _).
    destruct (IH (fields ++ [x])) as (xs & -> & Hlen).
    exists (x :: xs). rewrite <- app_assoc. cbn. now rewrite Hlen.
Qed.

Lemma convert_empty_iff (l : list string) :
  Strategy._convertProfileFields l = "" <-> l = [] \/ l = [""].
Proof.
  unfold Strategy._convertProfileFields. split.
  - destruct l as [| f [| g rest]]; [now left | |].
    + cbn. destruct (push_field_one [] f) as (x & -> & Hx). cbn.
      intros ->. right. f_equal. now apply Hx.
    + cbn. destruct (push_field_one [] f) as (x & -> & _).
      destruct (push_field_one ([] ++ [x]) g) as (y & -> & _).
      destruct (fold_push_field_grows rest (([] ++ [x]) ++ [y]))
        as (xs & -> & _).
      cbn. destruct x; discriminate.
  - intros [-> | ->]; reflexivity.
Qed.

(** *** The proof of possession *)

(** The digest is computed and dropped: the URL is the same whatever the
    digest function, the client secret and the access token are. *)
Lemma userProfile_url_ignores_proof (digest' : string -> string -> string)
  (self self' : Strategy.t) (accessToken accessToken' : string) :
  Strategy._profileURL self' = Strategy._profileURL self ->
  Strategy._profileFields self' = Strategy._profileFields self ->
  Strategy._enableProof self' = Strategy._enableProof self ->
  userProfile_url self accessToken =
  Strategy.userProfile_url url_others uri_parse uri_format digest'
    self' accessToken'.
Proof.
  intros Hurl Hf Hproof. unfold Strategy.userProfile_url.
  now rewrite Hurl, Hf, Hproof.
Qed.

(** C1 (what the code does instead): with the proof of possession enabled,
    the URL asked for does not depend on the digest, and without an
    allow-list its query is the old query followed by an ampersand, or
    empty; the digest is computed and never appended. *)
Theorem userProfile_url_without_proof (digest' : string -> string -> string)
  (self : Strategy.t) (accessToken : string) :
  Strategy._enableProof self = true ->
  userProfile_url self accessToken =
  Strategy.userProfile_url url_others uri_parse uri_format digest'
    self accessToken /\
  (Strategy._profileFields self = None ->
   userProfile_url self accessToken =
   uri_format
     (Strategy.set_search (uri_parse (Strategy._profileURL self))
        (Strategy.amp (uri_parse (Strategy._profileURL self))))).
Proof.
  intros Hproof. split.
  - now apply userProfile_url_ignores_proof.
  - intros Hf. unfold Strategy.userProfile_url. now rewrite Hproof, Hf.
Qed.

End StrategyFacts.

(** ** Runs on the concrete collaborators *)

Example parseInt10_190 : parseInt10 "190" = number_of_Z false 190.
Proof. reflexivity. Qed.

Example parseInt10_not_a_number : parseInt10 "abc" = NaN.
Proof. reflexivity. Qed.

Example convert_example :
  Strategy._convertProfileFields ["id"; "displayName"; "unknownField"]
  = "id,name,unknownField".
Proof. reflexivity. Qed.

Example convert_empty_list : Strategy._convertProfileFields [] = "".
Proof. reflexivity. Qed.

(** A name that [Object.prototype] defines is neither translated nor kept. *)
Example convert_inherited_name :
  Strategy._convertProfileFields ["id"; "constructor"]
  = "id,function Object() { [native code] }".
Proof. reflexivity. Qed.

Lemma authenticate_provider_error_witness :
  Demo.authenticate
    (Some [("error_code", "190"); ("error_message", "Invalid token")]) tt
  = ([Strategy.EvError Demo.invalid_token], Normal tt) /\
  Demo.authenticate (Some [("code", "abc"); ("error_code", "")]) tt
  = ([Strategy.EvAuthenticate (Some [("code", "abc"); ("error_code", "")]) tt],
     Normal tt).
Proof.
  split.
  - apply (proj1 (authenticate_provider_error Demo.Request unit Demo.query
                    (Some [("error_code", "190");
                           ("error_message", "Invalid token")]) tt)
             [("error_code", "190"); ("error_message", "Invalid token")]
             "190");
      [reflexivity | reflexivity | discriminate | reflexivity].
  - apply (proj2 (authenticate_provider_error Demo.Request unit Demo.query
                    (Some [("code", "abc"); ("error_code", "")]) tt)).
    intros q Hq. injection Hq as <-. left. reflexivity.
Defined.

(** C3, as stated, fails on a query whose [error_code] is empty: the
    parameter is there, [error] is not, and the engine is invoked. *)
Lemma authenticate_delegates_on_empty_error_code :
  Spec.error_code_without_error [("error_code", "")] /\
  Demo.authenticate (Some [("error_code", "")]) tt
  = ([Strategy.EvAuthenticate (Some [("error_code", "")]) tt], Normal tt).
Proof. split; [split; [discriminate | reflexivity] | reflexivity]. Qed.

(** And on a query whose [error] is there but empty, which is not delegated. *)
Lemma authenticate_fails_on_empty_error :
  ~ Spec.error_code_without_error [("error_code", "190"); ("error", "")] /\
  Demo.authenticate (Some [("error_code", "190"); ("error", "")]) tt
  = ([Strategy.EvError
        (APIError.ZaloAPIError VUndefined (VNumber (number_of_Z false 190)))],
     Normal tt).
Proof. split; [intros [_ H]; discriminate H | reflexivity]. Qed.

Lemma userProfile_transport_error_witness :
  let err :=
    {| Strategy.statusCode := Some 400%Z;
       Strategy.data := Some Demo.invalid_token_body |} in
  let gateway :=
    {| Strategy.statusCode := Some 502%Z;
       Strategy.data := Some "Bad Gateway" |} in
  Demo.userProfile (Some err) "" (Demo.strategy None false) "token"
  = ([Strategy.EvGet "https://graph.zalo.me/v2.0/me" "token";
      Strategy.EvDone (Some (Strategy.APIError Demo.invalid_token)) None],
     Normal tt) /\
  Demo.userProfile (Some gateway) "" (Demo.strategy None false) "token"
  = ([Strategy.EvGet "https://graph.zalo.me/v2.0/me" "token";
      Strategy.EvDone
        (Some (Strategy.InternalOAuthError "Failed to fetch user profile"
                                           gateway))
        None],
     Normal tt).
Proof.
  intros err gateway. split.
  - apply (proj1 (userProfile_transport_error Demo.JSON_parse string
                    Demo.uri_parse Demo.uri_format Demo.digest
                    Demo.Request unit (Demo.respond (Some err) "")
                    (Demo.strategy None false) "token" err "" eq_refl)
             (VObject [("message", VString "Invalid token");
                       ("code", VNumber (number_of_Z false 190))])).
    exists Demo.invalid_token_body.
    exists (VObject
              [("error",
                VObject [("message", VString "Invalid token");
                         ("code", VNumber (number_of_Z false 190))])]).
    repeat split; try reflexivity. discriminate.
  - apply (proj2 (proj2 (userProfile_transport_error Demo.JSON_parse string
                    Demo.uri_parse Demo.uri_format Demo.digest
                    Demo.Request unit (Demo.respond (Some gateway) "")
                    (Demo.strategy None false) "token" gateway "" eq_refl))
             "Bad Gateway"); reflexivity.
Defined.

Lemma userProfile_success_path_witness :
  Demo.userProfile None "<html>" (Demo.strategy None false) "token"
  = ([Strategy.EvGet "https://graph.zalo.me/v2.0/me" "token";
      Strategy.EvDone (Some (Strategy.Error "Failed to parse user profile"))
                      None],
     Normal tt) /\
  exists profile,
    Demo.userProfile None Demo.profile_body (Demo.strategy None false) "token"
    = ([Strategy.EvGet "https://graph.zalo.me/v2.0/me" "token";
        Strategy.EvDone None (Some profile)],
       Normal tt).
Proof.
  split.
  - apply (proj1 (userProfile_success_path Demo.JSON_parse string
                    Demo.uri_parse Demo.uri_format Demo.digest Demo.Request
                    unit (Demo.respond None "<html>")
                    (Demo.strategy None false) "token" "<html>" eq_refl)).
    reflexivity.
  - apply (proj2 (userProfile_success_path Demo.JSON_parse string
                    Demo.uri_parse Demo.uri_format Demo.digest Demo.Request
                    unit (Demo.respond None Demo.profile_body)
                    (Demo.strategy None false) "token" Demo.profile_body
                    eq_refl)
             (VObject [("id", VString "42"); ("name", VString "An")]));
      reflexivity.
Defined.

(** The failing inputs of C8: the body [null], and a body that is a JSON
    string whose content is not JSON. *)
Lemma userProfile_exception_escapes_witness :
  Demo.userProfile None "null" (Demo.strategy None false) "token"
  = ([Strategy.EvGet "https://graph.zalo.me/v2.0/me" "token"],
     Throw TypeError) /\
  Demo.userProfile None (Demo.lit "An") (Demo.strategy None false) "token"
  = ([Strategy.EvGet "https://graph.zalo.me/v2.0/me" "token"],
     Throw SyntaxError).
Proof.
  split.
  - apply (proj1 (userProfile_exception_escapes Demo.JSON_parse string
                    Demo.uri_parse Demo.uri_format Demo.digest Demo.Request
                    unit (Demo.respond None "null")
                    (Demo.strategy None false) "token" "null" eq_refl)).
    reflexivity.
  - apply (proj2 (userProfile_exception_escapes Demo.JSON_parse string
                    Demo.uri_parse Demo.uri_format Demo.digest Demo.Request
                    unit (Demo.respond None (Demo.lit "An"))
                    (Demo.strategy None false) "token" (Demo.lit "An")
                    eq_refl) "An"); reflexivity.
Defined.

Lemma userProfile_provider_witness :
  exists normalized,
    Demo.userProfile None Demo.profile_body (Demo.strategy None false) "token"
    = ([Strategy.EvGet "https://graph.zalo.me/v2.0/me" "token";
        Strategy.EvDone None (Some normalized)],
       Normal tt) /\
    lookup "provider" normalized = Some (VString "facebook") /\
    lookup "_raw" normalized = Some (VString Demo.profile_body) /\
    lookup "_json" normalized
    = Some (VObject [("id", VString "42"); ("name", VString "An")]) /\
    Strategy.name (Demo.strategy None false) = "zalo" /\
    "facebook" <> Strategy.name (Demo.strategy None false).
Proof.
  apply (userProfile_provider Demo.JSON_parse string Demo.uri_parse
           Demo.uri_format Demo.digest Demo.Request unit
           (Demo.respond None Demo.profile_body) (Demo.options None false)
           "token" Demo.profile_body
           (VObject [("id", VString "42"); ("name", VString "An")])
           [("id", VString "42"); ("displayName", VString "An");
            ("birthday", VUndefined); ("gender", VUndefined)]);
    reflexivity.
Defined.

Lemma parseErrorResponse_cases_witness :
  Demo.parseErrorResponse Demo.invalid_token_body (number_of_Z false 400)
  = ([Strategy.EvLog
        (VObject
           [("error",
             VObject [("message", VString "Invalid token");
                      ("code", VNumber (number_of_Z false 190))])])],
     Normal (inl Demo.invalid_token)) /\
  Demo.parseErrorResponse "{}" (number_of_Z false 400)
  = ([Strategy.EvLog (VObject [])],
     match Demo.default_parseErrorResponse "{}" (number_of_Z false 400) with
     | Normal r => Normal (inr r)
     | Throw x => Throw x
     end) /\
  Demo.parseErrorResponse "Bad Gateway" (number_of_Z false 502)
  = ([], Throw SyntaxError).
Proof.
  split; [| split].
  - apply (proj1 (parseErrorResponse_cases Demo.JSON_parse Demo.Request unit
                    unit Demo.default_parseErrorResponse
                    Demo.invalid_token_body (number_of_Z false 400))
             _ (VObject [("message", VString "Invalid token");
                         ("code", VNumber (number_of_Z false 190))]));
      reflexivity.
  - apply (proj1 (proj2 (parseErrorResponse_cases Demo.JSON_parse
                    Demo.Request unit unit Demo.default_parseErrorResponse
                    "{}" (number_of_Z false 400)))
             (VObject []) VUndefined); reflexivity.
  - apply (proj1 (proj2 (proj2 (parseErrorResponse_cases Demo.JSON_parse
                    Demo.Request unit unit Demo.default_parseErrorResponse
                    "Bad Gateway" (number_of_Z false 502))))).
    reflexivity.
Defined.

(** C5, as stated, fails on a body that is not JSON: the engine's own
    parser would return, and [parseErrorResponse] throws instead of
    returning that. *)
Lemma parseErrorResponse_throws_on_malformed_body :
  Demo.default_parseErrorResponse "Bad Gateway" (number_of_Z false 502)
  = Normal tt /\
  Demo.parseErrorResponse "Bad Gateway" (number_of_Z false 502)
  = ([], Throw SyntaxError) /\
  ~ (exists events r,
        Demo.parseErrorResponse "Bad Gateway" (number_of_Z false 502)
        = (events, Normal r)).
Proof.
  repeat split. intros (events & r & H). discriminate H.
Qed.

Lemma userProfile_fields_parameter_witness :
  Strategy._convertProfileFields ["id"; "displayName"; "unknownField"]
  = "id,name,unknownField" /\
  Demo.userProfile_url
    (Demo.strategy (Some ["id"; "displayName"; "unknownField"]) false) "token"
  = "https://graph.zalo.me/v2.0/me?fields=id,name,unknownField".
Proof.
  assert (Hn : forall f, In f ["id"; "displayName"; "unknownField"] ->
                         inherited f = false).
  { intros f [<- | [<- | [<- | []]]]; reflexivity. }
  destruct (userProfile_fields_parameter string Demo.uri_parse Demo.uri_format
              Demo.digest
              (Demo.strategy (Some ["id"; "displayName"; "unknownField"]) false)
              "token" ["id"; "displayName"; "unknownField"] eq_refl Hn)
    as [Hconv Hurl].
  split; [exact Hconv |].
  exact (Hurl ltac:(discriminate)).
Defined.

(** C6, as stated, fails on the allow-list that holds one empty name: it
    is not empty, and no [fields] parameter is appended. *)
Lemma fields_parameter_not_appended :
  [""] <> @nil string /\
  Demo.userProfile_url (Demo.strategy (Some [""]) false) "token"
  = "https://graph.zalo.me/v2.0/me" /\
  index 0 "fields=" (Demo.userProfile_url (Demo.strategy (Some [""]) false)
                                          "token")
  = None.
Proof. repeat split. discriminate. Qed.

Lemma userProfile_url_empty_fields_witness :
  Demo.userProfile_url (Demo.strategy (Some []) true) "token"
  = "https://graph.zalo.me/v2.0/me" /\
  Demo.userProfile_url (Demo.strategy (Some []) true) "token"
  = Demo.userProfile_url (Demo.strategy None true) "token".
Proof.
  apply (userProfile_url_empty_fields string Demo.uri_parse Demo.uri_format
           Demo.digest (Demo.strategy (Some []) true)
           (Demo.strategy None true) "token" []); reflexivity.
Defined.

(** The failing input of C1: the default profile URL, the proof enabled, no
    allow-list; whatever the digest, the URL asked for is the bare profile
    URL. *)
Lemma userProfile_url_without_proof_witness :
  Demo.userProfile_url (Demo.strategy None true) "token"
  = Strategy.userProfile_url string Demo.uri_parse Demo.uri_format
      (fun _ _ => "") (Demo.strategy None true) "token" /\
  Demo.userProfile_url (Demo.strategy None true) "token"
  = "https://graph.zalo.me/v2.0/me".
Proof.
  destruct (userProfile_url_without_proof string Demo.uri_parse
              Demo.uri_format Demo.digest (fun _ _ => "")
              (Demo.strategy None true) "token" eq_refl) as [Hsame Hurl].
  split; [exact Hsame | exact (Hurl eq_refl)].
Defined.

(** * Further properties of the code *)

(** ** The constructor *)

Lemma or_else_nonempty (o : option string) (d : string) :
  d <> "" -> or_else o d <> "".
Proof.
  intros Hd. destruct o as [s|]; cbn; [| assumption].
  destruct (s =? "") eqn:E; [assumption |].
  intros ->. discriminate E.
Qed.

(** X1: Whatever the options are, also when one of them is the empty string,
    the constructor gives the engine an authorization URL, a token URL and a
    scope separator that are not empty, and keeps a profile URL that is not
    empty. *)
Theorem Strategy_never_empty (o : Strategy.options) :
  Strategy.oauth2_authorizationURL (Strategy.Strategy o) <> "" /\
  Strategy.oauth2_tokenURL (Strategy.Strategy o) <> "" /\
  Strategy.oauth2_scopeSeparator (Strategy.Strategy o) <> "" /\
  Strategy._profileURL (Strategy.Strategy o) <> "".
Proof.
  cbn. repeat split; apply or_else_nonempty; discriminate.
Qed.

(** ** [authorizationParams] *)

Lemma get_not_nullish (v : value) (k : string) :
  nullish v = false -> get v k = Normal (member v k).
Proof.
  destruct v; cbn; try discriminate; intros _; reflexivity.
Qed.

(** The parameters, in closed form. *)
Lemma authorizationParams_closed (options : value) :
  nullish options = false ->
  Strategy.authorizationParams options =
  Normal (param_of options "display" "display"
          ++ param_of options "authType" "auth_type"
          ++ param_of options "authNonce" "auth_nonce").
Proof.
  intros Hn. unfold Strategy.authorizationParams, param_of.
  rewrite !(get_not_nullish options) by assumption. cbn [cbind].
  destruct (truthy (member options "display"));
    destruct (truthy (member options "authType"));
    destruct (truthy (member options "authNonce")); reflexivity.
Qed.

Lemma lookup_param_of (options : value) (option param k : string) :
  lookup k (param_of options option param) =
  if (param =? k) && truthy (member options option)
  then Some (member options option) else None.
Proof.
  unfold param_of. destruct (truthy (member options option)); cbn.
  - destruct (param =? k); reflexivity.
  - now rewrite andb_false_r.
Qed.

Lemma lookup_app (k : string) (l l' : list (string * value)) :
  lookup k (l ++ l') =
  match lookup k l with Some v => Some v | None => lookup k l' end.
Proof.
  induction l as [| [k' v] l IH]; cbn; [reflexivity |].
  destruct (k' =? k); [reflexivity | exact IH].
Qed.

(** X2: On options that are an object, [authorizationParams] returns: [display]
    is set from [display], [auth_type] from [authType] and [auth_nonce] from
    [authNonce], each exactly when the option is truthy; nothing else is
    set, and no parameter has a falsy value. *)
Theorem authorizationParams_sets (options : value) :
  nullish options = false ->
  exists params,
    Strategy.authorizationParams options = Normal params /\
    lookup "display" params =
    (if truthy (member options "display")
     then Some (member options "display") else None) /\
    lookup "auth_type" params =
    (if truthy (member options "authType")
     then Some (member options "authType") else None) /\
    lookup "auth_nonce" params =
    (if truthy (member options "authNonce")
     then Some (member options "authNonce") else None) /\
    (forall k v, lookup k params = Some v ->
                 In k ["display"; "auth_type"; "auth_nonce"] /\
                 truthy v = true).
Proof.
  intros Hn. rewrite (authorizationParams_closed options Hn).
  eexists. split; [reflexivity |].
  repeat split;
    try (rewrite !lookup_app, !lookup_param_of; cbn;
         repeat match goal with
                | |- context [truthy ?v] => destruct (truthy v)
                end; reflexivity).
  - rewrite !lookup_app, !lookup_param_of in H.
    destruct ("display" =? k) eqn:E1; [apply String.eqb_eq in E1; subst; cbn; tauto |].
    destruct ("auth_type" =? k) eqn:E2; [apply String.eqb_eq in E2; subst; cbn; tauto |].
    destruct ("auth_nonce" =? k) eqn:E3; [apply String.eqb_eq in E3; subst; cbn; tauto |].
    cbn in H. discriminate.
  - rewrite !lookup_app, !lookup_param_of in H.
    repeat match type of H with
           | context [?a =? k] => destruct (a =? k)
           end; cbn in H;
      repeat match type of H with
             | context [truthy ?x] =>
                 let E := fresh "E" in destruct (truthy x) eqn:E
             end; cbn in H; try discriminate; congruence.
Qed.

(** X3: Options it does not know are ignored: two option objects that agree on
    [display], [authType] and [authNonce] give the same parameters. *)
Theorem authorizationParams_ignores_others (options options' : value) :
  nullish options = false -> nullish options' = false ->
  member options' "display" = member options "display" ->
  member options' "authType" = member options "authType" ->
  member options' "authNonce" = member options "authNonce" ->
  Strategy.authorizationParams options' = Strategy.authorizationParams options.
Proof.
  intros Hn Hn' Hd Ht Hc.
  rewrite (authorizationParams_closed options Hn),
          (authorizationParams_closed options' Hn').
  unfold param_of. now rewrite Hd, Ht, Hc.
Qed.

(** X4: It throws exactly on options that are [null] or [undefined], on the
    first member it reads. *)
Theorem authorizationParams_throws_iff (options : value) :
  (exists x, Strategy.authorizationParams options = Throw x) <->
  nullish options = true.
Proof.
  split.
  - intros [x Hx]. destruct (nullish options) eqn:Hn; [reflexivity |].
    rewrite (authorizationParams_closed options Hn) in Hx. discriminate.
  - intros Hn. exists TypeError.
    destruct options; try discriminate; reflexivity.
Qed.

Lemma authorizationParams_sets_witness :
  nullish Demo.popup_options = false /\
  exists params,
    Strategy.authorizationParams Demo.popup_options = Normal params /\
    lookup "display" params = Some (VString "popup") /\
    lookup "auth_type" params = Some (VString "reauthenticate") /\
    lookup "auth_nonce" params = None /\
    lookup "scope" params = None.
Proof.
  split; [reflexivity |].
  destruct (authorizationParams_sets Demo.popup_options eq_refl)
    as (params & Hp & Hd & Ht & Hn & Hall).
  exists params. repeat split; try assumption.
  destruct (lookup "scope" params) as [v|] eqn:Hs; [| reflexivity].
  destruct (Hall "scope" v Hs) as [[H | [H | [H | []]]] _]; discriminate H.
Defined.

Lemma authorizationParams_ignores_others_witness :
  Strategy.authorizationParams
    (VObject [("authNonce", VString "");
              ("authType", VString "reauthenticate");
              ("state", VString "xyz");
              ("display", VString "popup")])
  = Strategy.authorizationParams Demo.popup_options.
Proof.
  apply authorizationParams_ignores_others; reflexivity.
Defined.

(** ** The normalizer on strings, and where it fails *)

Section ParseFacts.

Variable JSON_parse : string -> option value.

Local Abbreviation parse := (Profile.parse JSON_parse).

(** What [parse] does with a string. *)
Lemma parse_string_cases (s : string) :
  parse (VString s) =
  match JSON_parse s with
  | None => Throw SyntaxError
  | Some j =>
      if nullish j then Throw TypeError
      else match j with
           | VString _ => Normal (mapped_members j)
           | _ => parse j
           end
  end.
Proof.
  unfold Profile.parse at 1. unfold Profile.JSON_parse_or_throw.
  destruct (JSON_parse s) as [j|]; [| reflexivity].
  destruct j; reflexivity.
Qed.

(** X5: A JSON-encoded string is decoded once and then normalized as the
    decoded value is; when it decodes to a string again, that string is not
    decoded a second time, and every member of the result is [undefined]. *)
Theorem parse_encoded (s : string) (j : value) :
  JSON_parse s = Some j ->
  ((forall t, j <> VString t) -> parse (VString s) = parse j) /\
  (forall t, j = VString t ->
             parse (VString s) =
             Normal [("id", VUndefined); ("displayName", VUndefined);
                     ("birthday", VUndefined); ("gender", VUndefined)]).
Proof.
  intros Hs. rewrite parse_string_cases, Hs. split.
  - intros Hnot. destruct j; try reflexivity. now destruct (Hnot s0).
  - intros t ->. reflexivity.
Qed.

(** Where [parse] throws. *)
Lemma parse_throws_cases (json : value) (x : exn) :
  parse json = Throw x <->
  (nullish json = true /\ x = TypeError) \/
  (exists s, json = VString s /\
             ((JSON_parse s = None /\ x = SyntaxError) \/
              (exists j, JSON_parse s = Some j /\ nullish j = true /\
                         x = TypeError))).
Proof.
  split.
  - intros Hx. destruct json;
      try (rewrite parse_decoded in Hx by reflexivity; discriminate Hx).
    + left. cbn in Hx. split; [reflexivity | congruence].
    + left. cbn in Hx. split; [reflexivity | congruence].
    + right. exists s. split; [reflexivity |].
      rewrite parse_string_cases in Hx.
      destruct (JSON_parse s) as [j|]; [| left; split; congruence].
      right. exists j. destruct (nullish j) eqn:Hn.
      * repeat split; congruence.
      * destruct j; try discriminate Hn; try discriminate Hx;
          rewrite parse_decoded in Hx by reflexivity; discriminate Hx.
  - intros [[Hn ->] | (s & -> & [[Hs ->] | (j & Hs & Hn & ->)])].
    + destruct json; try discriminate Hn; reflexivity.
    + now rewrite parse_string_cases, Hs.
    + now rewrite parse_string_cases, Hs, Hn.
Qed.

(** X6: [parse] throws in these cases and no other: a TypeError on [null] and
    [undefined], a SyntaxError on a string that is not JSON, and a TypeError
    on a string that is the JSON of [null]. *)
Theorem parse_throws_iff (json : value) (x : exn) :
  parse json = Throw x <->
  (nullish json = true /\ x = TypeError) \/
  (exists s, json = VString s /\
             ((JSON_parse s = None /\ x = SyntaxError) \/
              (exists j, JSON_parse s = Some j /\ nullish j = true /\
                         x = TypeError))).
Proof. apply parse_throws_cases. Qed.

(** What [parse] returns. *)
Lemma parse_members_shape (json : value) (profile : list (string * value)) :
  parse json = Normal profile ->
  (List.map fst profile = ["id"; "displayName"; "birthday"; "gender"] /\
   lookup "photos" profile = None) \/
  (List.map fst profile
   = ["id"; "displayName"; "birthday"; "gender"; "photos"] /\
   exists v, lookup "photos" profile = Some (VArray [VObject [("value", v)]])).
Proof.
  assert (Hdec : forall j p, decoded j = true -> parse j = Normal p ->
            (List.map fst p = ["id"; "displayName"; "birthday"; "gender"] /\
             lookup "photos" p = None) \/
            (List.map fst p
             = ["id"; "displayName"; "birthday"; "gender"; "photos"] /\
             exists v, lookup "photos" p
                       = Some (VArray [VObject [("value", v)]]))).
  { intros j p Hd Hp. rewrite (parse_decoded JSON_parse j Hd) in Hp.
    cbv zeta in Hp. injection Hp as <-.
    destruct (truthy (member j "picture"));
      [destruct (nested_picture (member j "picture")) |];
      [right | right | left]; (split; [reflexivity |]);
      try (eexists; reflexivity); reflexivity. }
  intros Hp.
  destruct json as [| | b | n | s | items | props];
    try (refine (Hdec _ _ _ Hp); reflexivity).
  - cbn in Hp. discriminate Hp.
  - cbn in Hp. discriminate Hp.
  - rewrite parse_string_cases in Hp.
    destruct (JSON_parse s) as [j|]; [| discriminate Hp].
    destruct j as [| | b | n | t | items | props];
      try (cbn in Hp; discriminate Hp);
      try (refine (Hdec _ _ _ Hp); reflexivity).
    cbn in Hp. injection Hp as <-. left. split; reflexivity.
Qed.

(** X7: Whenever [parse] returns, the members of the profile are [id],
    [displayName], [birthday] and [gender], in this order, and possibly
    [photos] after them; [photos], when it is there, is an array of exactly
    one object whose only member is [value]. *)
Theorem parse_shape (json : value) (profile : list (string * value)) :
  parse json = Normal profile ->
  (List.map fst profile = ["id"; "displayName"; "birthday"; "gender"] /\
   lookup "photos" profile = None) \/
  (List.map fst profile
   = ["id"; "displayName"; "birthday"; "gender"; "photos"] /\
   exists v, lookup "photos" profile = Some (VArray [VObject [("value", v)]])).
Proof. apply parse_members_shape. Qed.

End ParseFacts.

Lemma parse_encoded_witness :
  Demo.JSON_parse Demo.profile_body
  = Some (VObject [("id", VString "42"); ("name", VString "An")]) /\
  Profile.parse Demo.JSON_parse (VString Demo.profile_body)
  = Profile.parse Demo.JSON_parse
      (VObject [("id", VString "42"); ("name", VString "An")]).
Proof.
  split; [reflexivity |].
  apply (proj1 (parse_encoded Demo.JSON_parse Demo.profile_body
                  (VObject [("id", VString "42"); ("name", VString "An")])
                  eq_refl)).
  intros t H. discriminate H.
Defined.

Lemma parse_shape_witness :
  let json :=
    VObject [("id", VString "42"); ("picture", VString "http://p/1.jpg")] in
  Profile.parse Demo.JSON_parse json
  = Normal [("id", VString "42"); ("displayName", VUndefined);
            ("birthday", VUndefined); ("gender", VUndefined);
            ("photos", VArray [VObject [("value", VString "http://p/1.jpg")]])]
  /\
  ((List.map fst
      [("id", VString "42"); ("displayName", VUndefined);
       ("birthday", VUndefined); ("gender", VUndefined);
       ("photos", VArray [VObject [("value", VString "http://p/1.jpg")]])]
    = ["id"; "displayName"; "birthday"; "gender"] /\
    lookup "photos"
      [("id", VString "42"); ("displayName", VUndefined);
       ("birthday", VUndefined); ("gender", VUndefined);
       ("photos", VArray [VObject [("value", VString "http://p/1.jpg")]])]
    = None) \/
   (List.map fst
      [("id", VString "42"); ("displayName", VUndefined);
       ("birthday", VUndefined); ("gender", VUndefined);
       ("photos", VArray [VObject [("value", VString "http://p/1.jpg")]])]
    = ["id"; "displayName"; "birthday"; "gender"; "photos"] /\
    exists v,
      lookup "photos"
        [("id", VString "42"); ("displayName", VUndefined);
         ("birthday", VUndefined); ("gender", VUndefined);
         ("photos", VArray [VObject [("value", VString "http://p/1.jpg")]])]
      = Some (VArray [VObject [("value", v)]]))).
Proof.
  intros json. split; [reflexivity |].
  apply (parse_shape Demo.JSON_parse json). reflexivity.
Defined.

(** ** Objects: adding a member that is not there *)

Lemma lookup_fresh (k : string) (props : list (string * value)) :
  ~ In k (List.map fst props) -> lookup k props = None.
Proof.
  induction props as [| [k' v] rest IH]; cbn; [reflexivity |].
  intros Hnot. destruct (k' =? k) eqn:E.
  - apply String.eqb_eq in E. tauto.
  - apply IH. tauto.
Qed.

Lemma assign_fresh (k : string) (v : value) (props : list (string * value)) :
  ~ In k (List.map fst props) -> assign k v props = props ++ [(k, v)].
Proof.
  induction props as [| [k' v'] rest IH]; cbn; [reflexivity |].
  intros Hnot. destruct (k' =? k) eqn:E.
  - apply String.eqb_eq in E. tauto.
  - rewrite IH by tauto. reflexivity.
Qed.

Lemma append_assoc (a b c : string) : ((a ++ b) ++ c = a ++ b ++ c)%string.
Proof. induction a as [| x a IH]; cbn; [reflexivity | now rewrite IH]. Qed.

Lemma append_nonempty (a b : string) : b <> "" -> (a ++ b)%string <> "".
Proof. destruct a; cbn; [trivial | discriminate]. Qed.

(** ** [userProfile]: how it ends *)

Section UserProfileFacts.

Variable JSON_parse : string -> option value.
Variable url_others : Type.
Variable uri_parse : string -> Strategy.urlObject url_others.
Variable uri_format : Strategy.urlObject url_others -> string.
Variable hmac_sha256_hex : string -> string -> string.
Variable Request Options : Type.
Variable oauth2_get :
  string -> string -> option Strategy.transport_error * string.

Local Abbreviation userProfile_url :=
  (Strategy.userProfile_url url_others uri_parse uri_format hmac_sha256_hex).
Local Abbreviation userProfile_callback :=
  (Strategy.userProfile_callback JSON_parse Request Options).
Local Abbreviation userProfile :=
  (Strategy.userProfile JSON_parse url_others uri_parse uri_format
     hmac_sha256_hex Request Options oauth2_get).

(** The callback on a transport error, in closed form. *)
Lemma callback_on_error (err : Strategy.transport_error) (body : string) :
  userProfile_callback (Some err) body =
  ([Strategy.EvDone
      (Some
         (match Strategy.data err with
          | Some d =>
              if d =? "" then
                Strategy.InternalOAuthError "Failed to fetch user profile" err
              else
                match JSON_parse d with
                | Some json =>
                    if truthy json
                       && truthy (member json "error")
                       && (typeof (member json "error") =? "object")
                    then
                      Strategy.APIError
                        (APIError.ZaloAPIError
                           (member (member json "error") "message")
                           (member (member json "error") "code"))
                    else
                      Strategy.InternalOAuthError
                        "Failed to fetch user profile" err
                | None =>
                    Strategy.InternalOAuthError
                      "Failed to fetch user profile" err
                end
          | None =>
              Strategy.InternalOAuthError "Failed to fetch user profile" err
          end))
      None],
   Normal tt).
Proof.
  unfold Strategy.userProfile_callback.
  destruct (Strategy.data err) as [d|]; cbn; [| reflexivity].
  destruct (d =? ""); cbn; [reflexivity |].
  destruct (JSON_parse d) as [json|]; [| reflexivity].
  destruct (truthy json) eqn:Hj; [| reflexivity].
  rewrite (get_truthy json) by assumption. cbn.
  destruct (truthy (member json "error")) eqn:He; [| reflexivity].
  destruct (typeof (member json "error") =? "object"); [| reflexivity].
  cbn. rewrite !(get_truthy (member json "error")) by assumption.
  reflexivity.
Qed.

(** The callback without a transport error, in closed form. *)
Lemma callback_on_body (body : string) :
  userProfile_callback None body =
  match JSON_parse body with
  | None =>
      ([Strategy.EvDone (Some (Strategy.Error "Failed to parse user profile"))
                        None],
       Normal tt)
  | Some json =>
      match Profile.parse JSON_parse json with
      | Normal profile =>
          ([Strategy.EvDone None
              (Some (assign "_json" json
                       (assign "_raw" (VString body)
                          (assign "provider" (VString "facebook") profile))))],
           Normal tt)
      | Throw x => ([], Throw x)
      end
  end.
Proof.
  unfold Strategy.userProfile_callback.
  destruct (JSON_parse body) as [json|]; [| reflexivity].
  destruct (Profile.parse JSON_parse json); reflexivity.
Qed.

(** X8: Whatever the engine answers, [userProfile] asks for the URL once, with
    the access token, and then ends in one of three ways: [done] is called
    once with an error and no profile, or once with a profile and no error,
    or an exception is thrown and [done] is not called. *)
Theorem userProfile_ends (self : Strategy.t) (accessToken : string) :
  (exists e,
      userProfile self accessToken =
      ([Strategy.EvGet (userProfile_url self accessToken) accessToken;
        Strategy.EvDone (Some e) None],
       Normal tt)) \/
  (exists profile,
      userProfile self accessToken =
      ([Strategy.EvGet (userProfile_url self accessToken) accessToken;
        Strategy.EvDone None (Some profile)],
       Normal tt)) \/
  (exists x,
      userProfile self accessToken =
      ([Strategy.EvGet (userProfile_url self accessToken) accessToken],
       Throw x)).
Proof.
  rewrite userProfile_unfold.
  destruct (oauth2_get _ _) as [[err|] body]; cbn [fst snd].
  - left. rewrite callback_on_error. eexists. reflexivity.
  - rewrite callback_on_body.
    destruct (JSON_parse body) as [json|].
    + destruct (Profile.parse JSON_parse json) as [profile | x].
      * right. left. eexists. reflexivity.
      * right. right. eexists. reflexivity.
    + left. eexists. reflexivity.
Qed.

(** X9: [userProfile] throws in these cases and no other: the engine reports no
    transport error and the body is the JSON of [null], or of a string that
    is not JSON, or of a string that is the JSON of [null]. *)
Theorem userProfile_throws_iff (self : Strategy.t) (accessToken : string)
  (x : exn) :
  snd (userProfile self accessToken) = Throw x <->
  exists body json,
    oauth2_get (userProfile_url self accessToken) accessToken = (None, body) /\
    JSON_parse body = Some json /\
    ((nullish json = true /\ x = TypeError) \/
     (exists s, json = VString s /\
                ((JSON_parse s = None /\ x = SyntaxError) \/
                 (exists j, JSON_parse s = Some j /\ nullish j = true /\
                            x = TypeError)))).
Proof.
  rewrite userProfile_unfold. cbn [snd].
  destruct (oauth2_get _ _) as [[err|] body]; cbn [fst snd].
  - rewrite callback_on_error. cbn. split; [discriminate |].
    intros (b & j & H & _). discriminate H.
  - rewrite callback_on_body. split.
    + intros Hx. exists body.
      destruct (JSON_parse body) as [json|]; [| discriminate Hx].
      exists json. split; [reflexivity |]. split; [reflexivity |].
      apply (parse_throws_cases JSON_parse).
      destruct (Profile.parse JSON_parse json);
        [discriminate Hx | cbn in Hx; injection Hx as ->; reflexivity].
    + intros (b & json & Hb & Hjson & Hcases).
      injection Hb as <-. rewrite Hjson.
      apply (parse_throws_cases JSON_parse) in Hcases. now rewrite Hcases.
Qed.

(** X10: On a successful fetch the profile handed to [done] is the normalizer's
    profile with three members added at its end, [provider], [_raw] and
    [_json], in this order; every member of the normalizer's profile is
    kept as it is. *)
Theorem userProfile_keeps_members (self : Strategy.t) (accessToken : string)
  (body : string) (json : value) (profile : list (string * value)) :
  oauth2_get (userProfile_url self accessToken) accessToken = (None, body) ->
  JSON_parse body = Some json ->
  Profile.parse JSON_parse json = Normal profile ->
  userProfile self accessToken =
  ([Strategy.EvGet (userProfile_url self accessToken) accessToken;
    Strategy.EvDone None
      (Some (profile ++ [("provider", VString "facebook");
                         ("_raw", VString body);
                         ("_json", json)]))],
   Normal tt) /\
  (forall k, In k (List.map fst profile) ->
             lookup k (profile ++ [("provider", VString "facebook");
                                   ("_raw", VString body);
                                   ("_json", json)])
             = lookup k profile).
Proof.
  intros Hget Hjson Hparse.
  assert (Hkeys : forall k, In k ["provider"; "_raw"; "_json"] ->
                            ~ In k (List.map fst profile)).
  { intros k Hk Hin.
    destruct (parse_members_shape JSON_parse json profile Hparse)
      as [[Hm _] | [Hm _]]; rewrite Hm in Hin; cbn in Hk, Hin;
      intuition (subst; discriminate). }
  split.
  - rewrite userProfile_unfold, Hget. cbn [fst snd].
    rewrite callback_on_body, Hjson, Hparse.
    rewrite (assign_fresh "provider") by (apply Hkeys; cbn; tauto).
    rewrite (assign_fresh "_raw").
    2:{ rewrite List.map_app, in_app_iff. cbn.
        intros [H | [H | []]]; [| discriminate H].
        revert H. apply Hkeys. cbn. tauto. }
    rewrite (assign_fresh "_json").
    2:{ rewrite !List.map_app, !in_app_iff. cbn.
        intros [[H | [H | []]] | [H | []]]; try discriminate H.
        revert H. apply Hkeys. cbn. tauto. }
    rewrite <- !app_assoc. reflexivity.
  - intros k Hk. rewrite lookup_app.
    destruct (lookup k profile) as [v|] eqn:Hl; [reflexivity |].
    exfalso. clear - Hk Hl.
    induction profile as [| [k' v'] rest IH]; cbn in *; [assumption |].
    destruct (k' =? k) eqn:E; [discriminate Hl |].
    destruct Hk as [-> | Hk]; [now rewrite String.eqb_refl in E | auto].
Qed.

(** X11: A body that is the JSON of a string holding the JSON of a profile is
    accepted: the profile is normalized from the inner value, and [_json]
    is the string, not the value it holds. *)
Theorem userProfile_double_encoded (self : Strategy.t) (accessToken : string)
  (body s : string) (json : value) :
  oauth2_get (userProfile_url self accessToken) accessToken = (None, body) ->
  JSON_parse body = Some (VString s) ->
  JSON_parse s = Some json ->
  decoded json = true ->
  exists normalized,
    userProfile self accessToken =
    ([Strategy.EvGet (userProfile_url self accessToken) accessToken;
      Strategy.EvDone None (Some normalized)],
     Normal tt) /\
    lookup "id" normalized = Some (member json "id") /\
    lookup "displayName" normalized = Some (member json "name") /\
    lookup "_json" normalized = Some (VString s).
Proof.
  intros Hget Hbody Hs Hd.
  rewrite userProfile_unfold, Hget. cbn [fst snd].
  rewrite callback_on_body, Hbody, parse_string_cases, Hs.
  assert (Hn : nullish json = false) by (destruct json; easy).
  rewrite Hn.
  assert (Hp : match json with
               | VString _ => Normal (mapped_members json)
               | _ => Profile.parse JSON_parse json
               end = Profile.parse JSON_parse json)
    by (destruct json; try discriminate Hd; reflexivity).
  rewrite Hp, (parse_decoded JSON_parse json Hd). cbv zeta.
  eexists. split; [reflexivity |].
  destruct (truthy (member json "picture"));
    [destruct (nested_picture (member json "picture")) |];
    repeat split; try reflexivity.
Qed.

End UserProfileFacts.

(** ** The URL [userProfile] asks for *)

Section UrlFacts.

Variable url_others : Type.
Variable uri_parse : string -> Strategy.urlObject url_others.
Variable uri_format : Strategy.urlObject url_others -> string.
Variable hmac_sha256_hex : string -> string -> string.

Local Abbreviation userProfile_url :=
  (Strategy.userProfile_url url_others uri_parse uri_format hmac_sha256_hex).

(** X12: With an allow-list that does not translate to the empty string, the
    query of the URL asked for is [fields=...] alone when the profile URL
    has no query; otherwise it is the query of the profile URL, then one
    ampersand, or two when the proof of possession is enabled, then
    [fields=...]. *)
Theorem userProfile_url_separator (self : Strategy.t) (accessToken : string)
  (l : list string) :
  Strategy._profileFields self = Some l ->
  Strategy._convertProfileFields l <> "" ->
  userProfile_url self accessToken =
  uri_format
    (Strategy.set_search (uri_parse (Strategy._profileURL self))
       (match Strategy.search (uri_parse (Strategy._profileURL self)) with
        | Some q =>
            if q =? "" then ""
            else if Strategy._enableProof self then q ++ "&&" else q ++ "&"
        | None => ""
        end ++ "fields=" ++ Strategy._convertProfileFields l)).
Proof.
  intros Hf Hne. unfold Strategy.userProfile_url. rewrite Hf.
  not_empty (Strategy._convertProfileFields l).
  set (u := uri_parse (Strategy._profileURL self)).
  destruct (Strategy._enableProof self); [| reflexivity].
  unfold Strategy.set_search, Strategy.amp. cbn.
  destruct (Strategy.search u) as [q|]; [| reflexivity].
  destruct (q =? "") eqn:Eq; [reflexivity |].
  assert (Hq : (q ++ "&" =? "") = false) by (destruct q; reflexivity).
  rewrite Hq. do 2 f_equal. now rewrite !append_assoc.
Qed.

(** X13: The URL asked for depends neither on the access token nor on the client
    secret: the token goes to the engine's [get] as its own argument. *)
Theorem userProfile_url_token_free (self self' : Strategy.t)
  (accessToken accessToken' : string) :
  Strategy._profileURL self' = Strategy._profileURL self ->
  Strategy._profileFields self' = Strategy._profileFields self ->
  Strategy._enableProof self' = Strategy._enableProof self ->
  userProfile_url self' accessToken' = userProfile_url self accessToken.
Proof.
  intros Hurl Hf Hproof. unfold Strategy.userProfile_url.
  now rewrite Hurl, Hf, Hproof.
Qed.

End UrlFacts.

Lemma userProfile_url_separator_witness :
  Strategy._convertProfileFields ["id"; "photos"] <> "" /\
  Demo.userProfile_url
    (Strategy.Strategy (Demo.options_with_query (Some ["id"; "photos"]) true))
    "token"
  = "https://graph.zalo.me/v2.0/me?locale=vi&&fields=id,picture" /\
  Demo.userProfile_url
    (Strategy.Strategy (Demo.options_with_query (Some ["id"; "photos"]) false))
    "token"
  = "https://graph.zalo.me/v2.0/me?locale=vi&fields=id,picture".
Proof.
  assert (Hne : Strategy._convertProfileFields ["id"; "photos"] <> "")
    by discriminate.
  split; [exact Hne |]. split.
  - exact (userProfile_url_separator string Demo.uri_parse Demo.uri_format
             Demo.digest
             (Strategy.Strategy
                (Demo.options_with_query (Some ["id"; "photos"]) true))
             "token" ["id"; "photos"] eq_refl Hne).
  - exact (userProfile_url_separator string Demo.uri_parse Demo.uri_format
             Demo.digest
             (Strategy.Strategy
                (Demo.options_with_query (Some ["id"; "photos"]) false))
             "token" ["id"; "photos"] eq_refl Hne).
Defined.

Lemma userProfile_url_token_free_witness :
  Demo.userProfile_url
    (Strategy.Strategy (Demo.options_with_query (Some ["id"]) true))
    "another token"
  = Demo.userProfile_url
      (Strategy.Strategy (Demo.options_with_query (Some ["id"]) true))
      "token".
Proof.
  apply (userProfile_url_token_free string Demo.uri_parse Demo.uri_format
           Demo.digest); reflexivity.
Defined.

(** ** [_convertProfileFields] *)

(** The conversion of one name. *)
Lemma convert_single (f : string) :
  Strategy._convertProfileFields [f] =
  match Strategy.map_get f with
  | Strategy.Absent => f
  | Strategy.Own (Strategy.One s) => s
  | Strategy.Own (Strategy.Many l) => join "," l
  | Strategy.Inherited printed => printed
  end.
Proof.
  unfold Strategy._convertProfileFields, Strategy.push_field. cbn.
  destruct (Strategy.map_get f) as [[s | l] | printed |]; reflexivity.
Qed.

Ltac by_name f :=
  repeat match goal with
         | |- context [if ?a =? f then _ else _] =>
             let E := fresh "E" in
             destruct (a =? f) eqn:E;
             [apply String.eqb_eq in E; subst f |]
         end.

(** Each name of the allow-list adds exactly one field, which is empty only
    for the empty name. *)
Lemma push_field_adds_one (fields : list string) (f : string) :
  exists x, Strategy.push_field fields f = fields ++ [x] /\
            (x = "" <-> f = "").
Proof.
  unfold Strategy.push_field, Strategy.map_get.
  cbn [Strategy.assoc Strategy.map Strategy.Object_prototype].
  by_name f;
    try (eexists; split; [reflexivity | split; discriminate]).
  exists f. split; [reflexivity | split; trivial].
Qed.

Lemma fold_push_field_length (l fields : list string) :
  exists xs, fold_left Strategy.push_field l fields = fields ++ xs /\
             length xs = length l.
Proof.
  revert fields. induction l as [| f l IH]; intros fields; cbn.
  - exists []. now rewrite app_nil_r.
  - destruct (push_field_adds_one fields f) as (x & -> & _).
    destruct (IH (fields ++ [x])) as (xs & -> & Hlen).
    exists (x :: xs). rewrite <- app_assoc. cbn. now rewrite Hlen.
Qed.

(** X14: An allow-list translates to the empty string exactly when it is empty
    or holds nothing but one empty name. *)
Theorem convert_empty_exactly (l : list string) :
  Strategy._convertProfileFields l = "" <-> l = [] \/ l = [""].
Proof.
  unfold Strategy._convertProfileFields. split.
  - destruct l as [| f [| g rest]]; [now left | |].
    + cbn. destruct (push_field_adds_one [] f) as (x & -> & Hx). cbn.
      intros ->. right. f_equal. now apply Hx.
    + cbn. destruct (push_field_adds_one [] f) as (x & -> & _).
      destruct (push_field_adds_one ([] ++ [x]) g) as (y & -> & _).
      destruct (fold_push_field_length rest (([] ++ [x]) ++ [y]))
        as (xs & -> & _).
      cbn. destruct x; discriminate.
  - intros [-> | ->]; reflexivity.
Qed.

(** X15: Translating a translated name changes nothing: an allow-list may give a
    field by the provider's name for it. *)
Theorem convert_idempotent (f : string) :
  Strategy._convertProfileFields [Strategy._convertProfileFields [f]]
  = Strategy._convertProfileFields [f].
Proof.
  rewrite (convert_single f). unfold Strategy.map_get.
  cbn [Strategy.assoc Strategy.map Strategy.Object_prototype].
  by_name f; try reflexivity.
  rewrite (convert_single f). unfold Strategy.map_get.
  cbn [Strategy.assoc Strategy.map Strategy.Object_prototype].
  now rewrite E, E0, E1, E2, E3, E4, E5, E6, E7, E8, E9, E10, E11, E12, E13,
    E14, E15.
Qed.

(** X16: A name that [Object.prototype] defines is never passed through: what
    is sent in its place is the print of the inherited member. *)
Theorem convert_inherited (f : string) :
  inherited f = true ->
  Strategy._convertProfileFields [f] <> f /\
  Strategy.assoc f Strategy.Object_prototype
  = Some (Strategy._convertProfileFields [f]).
Proof.
  unfold inherited. rewrite (convert_single f). unfold Strategy.map_get.
  cbn [Strategy.assoc Strategy.map Strategy.Object_prototype].
  by_name f; cbn; intros H; try discriminate H;
    (split; [discriminate | reflexivity]).
Qed.

Lemma convert_inherited_witness :
  inherited "toString" = true /\
  Strategy._convertProfileFields ["toString"] <> "toString" /\
  Strategy.assoc "toString" Strategy.Object_prototype
  = Some (Strategy._convertProfileFields ["toString"]).
Proof.
  split; [reflexivity |]. apply (convert_inherited "toString"). reflexivity.
Defined.

Lemma push_field_append (fields : list string) (f : string) :
  Strategy.push_field fields f = fields ++ Strategy.push_field [] f.
Proof.
  unfold Strategy.push_field.
  destruct (Strategy.map_get f) as [[s | l] | printed |]; reflexivity.
Qed.

Lemma fold_push_field_append (l fields : list string) :
  fold_left Strategy.push_field l fields
  = fields ++ fold_left Strategy.push_field l [].
Proof.
  revert fields. induction l as [| f l IH]; intros fields; cbn.
  - now rewrite app_nil_r.
  - rewrite (IH (Strategy.push_field fields f)),
            (IH (Strategy.push_field [] f)), push_field_append.
    now rewrite app_assoc.
Qed.

Lemma join_app (sep : string) (a b : list string) :
  a <> [] -> b <> [] ->
  join sep (a ++ b) = (join sep a ++ sep ++ join sep b)%string.
Proof.
  intros Ha Hb. induction a as [| x a IH]; [contradiction |].
  destruct a as [| y a].
  - cbn. destruct b; [contradiction | reflexivity].
  - change (join sep ((x :: y :: a) ++ b))
      with (x ++ sep ++ join sep ((y :: a) ++ b))%string.
    rewrite IH by discriminate.
    change (join sep (x :: y :: a))
      with (x ++ sep ++ join sep (y :: a))%string.
    now rewrite !append_assoc.
Qed.

(** X17: The conversion of two allow-lists put together is the two conversions
    joined by a comma. *)
Theorem convert_app (l l' : list string) :
  l <> [] -> l' <> [] ->
  Strategy._convertProfileFields (l ++ l')
  = (Strategy._convertProfileFields l ++ ","
     ++ Strategy._convertProfileFields l')%string.
Proof.
  intros Hl Hl'. unfold Strategy._convertProfileFields.
  rewrite fold_left_app, fold_push_field_append.
  apply join_app.
  - destruct (fold_push_field_length l []) as (xs & -> & Hlen).
    destruct l; [contradiction |]. destruct xs; discriminate.
  - destruct (fold_push_field_length l' []) as (xs & -> & Hlen).
    destruct l'; [contradiction |]. destruct xs; discriminate.
Qed.

Lemma convert_app_witness :
  Strategy._convertProfileFields (["id"; "displayName"] ++ ["photos"])
  = "id,name,picture".
Proof.
  apply (convert_app ["id"; "displayName"] ["photos"]); discriminate.
Defined.

Lemma userProfile_keeps_members_witness :
  Demo.userProfile None Demo.profile_body (Demo.strategy None false) "token"
  = ([Strategy.EvGet "https://graph.zalo.me/v2.0/me" "token";
      Strategy.EvDone None
        (Some [("id", VString "42"); ("displayName", VString "An");
               ("birthday", VUndefined); ("gender", VUndefined);
               ("provider", VString "facebook");
               ("_raw", VString Demo.profile_body);
               ("_json",
                VObject [("id", VString "42"); ("name", VString "An")])])],
     Normal tt).
Proof.
  exact (proj1 (userProfile_keeps_members Demo.JSON_parse string
                  Demo.uri_parse Demo.uri_format Demo.digest Demo.Request
                  unit (Demo.respond None Demo.profile_body)
                  (Demo.strategy None false) "token" Demo.profile_body
                  (VObject [("id", VString "42"); ("name", VString "An")])
                  [("id", VString "42"); ("displayName", VString "An");
                   ("birthday", VUndefined); ("gender", VUndefined)]
                  eq_refl eq_refl eq_refl)).
Defined.

Lemma userProfile_double_encoded_witness :
  let body := ("  " ++ Demo.lit "{}")%string in
  Demo.JSON_parse body = Some (VString "{}") /\
  exists normalized,
    Demo.userProfile None body (Demo.strategy None false) "token"
    = ([Strategy.EvGet "https://graph.zalo.me/v2.0/me" "token";
        Strategy.EvDone None (Some normalized)],
       Normal tt) /\
    lookup "id" normalized = Some VUndefined /\
    lookup "displayName" normalized = Some VUndefined /\
    lookup "_json" normalized = Some (VString "{}").
Proof.
  intros body. split; [reflexivity |].
  apply (userProfile_double_encoded Demo.JSON_parse string Demo.uri_parse
           Demo.uri_format Demo.digest Demo.Request unit
           (Demo.respond None body) (Demo.strategy None false) "token"
           body "{}" (VObject [])); reflexivity.
Defined.

(** ** [authenticate]: the code of the error *)

Lemma to_uint_nonnil (n : nat) : Nat.to_uint n <> Decimal.Nil.
Proof.
  rewrite <- (DecimalNat.Unsigned.of_to n) at 1.
  rewrite DecimalNat.Unsigned.to_of. apply DecimalFacts.unorm_nonnil.
Qed.

Lemma digits_stop (rest : string) (acc : Z) (seen : bool) :
  starts_with_digit rest = false -> digits rest acc seen = (acc, seen).
Proof.
  destruct rest as [| c rest]; cbn; [reflexivity |].
  destruct (digit_of c); [discriminate | reflexivity].
Qed.

(** Reading the decimal text of a number, after the digits read so far. *)
Lemma digits_uint (d : Decimal.uint) (acc : nat) (rest : string) :
  starts_with_digit rest = false ->
  digits (DecimalString.NilEmpty.string_of_uint d ++ rest) (Z.of_nat acc) true
  = (Z.of_nat (Nat.of_uint_acc d acc), true).
Proof.
  intros Hrest. revert acc.
  induction d as [| d IH | d IH | d IH | d IH | d IH | d IH | d IH | d IH
                  | d IH | d IH]; intros acc;
    [ now apply digits_stop | .. ];
    cbn [DecimalString.NilEmpty.string_of_uint append digits Nat.of_uint_acc];
    match goal with
    | |- context [digit_of ?c] =>
        let v := eval cbv in (digit_of c) in
        change (digit_of c) with v; cbv iota
    end;
    rewrite <- IH; f_equal; rewrite Nat.tail_mul_spec; lia.
Qed.

(** A string that does not start with white space is left as it is. *)
Lemma trim_start_id (s : string) : white_space s = None -> trim_start s = s.
Proof.
  intros H. unfold trim_start. destruct s as [| c r]; [reflexivity |].
  cbn [String.length trim]. now rewrite H.
Qed.

Lemma white_space_shortens (s rest : string) :
  white_space s = Some rest -> (String.length rest < String.length s)%nat.
Proof.
  destruct s as [| c1 r1]; cbn [white_space]; [discriminate |].
  destruct (is_white_space c1); [intros [= <-]; cbn; lia |].
  destruct (nat_of_ascii c1 =? 194)%nat.
  - destruct r1 as [| c2 r2]; [discriminate |].
    destruct (nat_of_ascii c2 =? 160)%nat; [| discriminate].
    intros [= <-]. cbn. lia.
  - destruct ((nat_of_ascii c1 =? 225) || (nat_of_ascii c1 =? 226)
              || (nat_of_ascii c1 =? 227) || (nat_of_ascii c1 =? 239))%nat;
      [| discriminate].
    destruct r1 as [| c2 [| c3 r3]]; try discriminate.
    destruct (is_white_space3 _ _ _); [| discriminate].
    intros [= <-]. cbn. lia.
Qed.

(** The fuel of [trim] is enough: what [trim_start] returns does not start
    with white space. *)
Lemma trim_start_done (s : string) : white_space (trim_start s) = None.
Proof.
  unfold trim_start.
  assert (H : forall fuel t, (String.length t <= fuel)%nat ->
                             white_space (trim fuel t) = None).
  { induction fuel as [| fuel IH]; intros t Hlen; cbn [trim].
    - destruct t; [reflexivity | cbn in Hlen; lia].
    - destruct (white_space t) as [rest |] eqn:Hw; [| exact Hw].
      apply IH. apply white_space_shortens in Hw. lia. }
  now apply H.
Qed.

(** A digit is not white space, and does not start a longer white space. *)
Lemma white_space_digit (c : ascii) (rest : string) (d : Z) :
  digit_of c = Some d -> white_space (String c rest) = None.
Proof.
  intros H.
  destruct c as [[] [] [] [] [] [] [] []];
    try (cbv in H; discriminate H); reflexivity.
Qed.

Lemma parseInt10_decimal (n : nat) (rest : string) :
  starts_with_digit rest = false ->
  parseInt10 (decimal n ++ rest) = number_of_Z false (Z.of_nat n).
Proof.
  intros Hrest. unfold decimal.
  rewrite <- (DecimalNat.Unsigned.of_to n) at 2. unfold Nat.of_uint.
  pose proof (to_uint_nonnil n) as Hnil.
  destruct (Nat.to_uint n) as [| d | d | d | d | d | d | d | d | d | d];
    [ contradiction | .. ];
    unfold parseInt10;
    cbn [DecimalString.NilEmpty.string_of_uint append];
    (rewrite trim_start_id by (eapply white_space_digit; reflexivity));
    cbn [digits Nat.of_uint_acc];
    match goal with
    | |- context [digit_of ?c] =>
        let v := eval cbv in (digit_of c) in
        change (digit_of c) with v; cbv iota
    end;
    match goal with
    | |- context [digits _ ?z true] =>
        let k := eval cbv in (Z.to_nat z) in
        change z with (Z.of_nat k)
    end;
    rewrite (digits_uint d _ rest Hrest); reflexivity.
Qed.

Lemma parseInt10_no_digit (c : ascii) (rest : string) :
  white_space (String c rest) = None ->
  c <> "-"%char -> c <> "+"%char ->
  digit_of c = None ->
  parseInt10 (String c rest) = NaN.
Proof.
  intros Hw Hm Hp Hd. unfold parseInt10. rewrite (trim_start_id _ Hw).
  assert (Hs : match String c rest with
               | String "-"%char r => (true, r)
               | String "+"%char r => (false, r)
               | _ => (false, String c rest)
               end = (false, String c rest)).
  { destruct c as [[] [] [] [] [] [] [] []]; try reflexivity;
      exfalso; (apply Hm; reflexivity) || (apply Hp; reflexivity). }
  rewrite Hs. cbn [digits]. now rewrite Hd.
Qed.

(** White space outside ASCII is skipped as well: a no-break space, or a
    line separator after a tab, before the digits. *)
Example parseInt10_no_break_space :
  parseInt10 (String "194" (String "160" "12")) = number_of_Z false 12.
Proof. reflexivity. Qed.

Example parseInt10_line_separator :
  parseInt10 (String "009" (String "226" (String "128" (String "168" "-7x"))))
  = number_of_Z true (-7).
Proof. reflexivity. Qed.

(** A byte that only looks like the start of a white space is kept. *)
Example parseInt10_not_white_space :
  parseInt10 (String "194" (String "161" "12")) = NaN.
Proof. reflexivity. Qed.

Section AuthenticateFacts.

Variable Request Options : Type.
Variable query : Request -> option (list (string * string)).

Local Abbreviation authenticate :=
  (Strategy.authenticate Request Options query).

(** X18: When [error_code] is the decimal text of a number [n], possibly followed
    by text that does not start with a digit, and [error] is absent or
    empty, the ProviderError carries [n] as its code. *)
Theorem authenticate_decimal_code (req : Request) (options : Options)
  (q : list (string * string)) (n : nat) (rest : string) :
  query req = Some q ->
  Strategy.assoc "error_code" q = Some (decimal n ++ rest)%string ->
  starts_with_digit rest = false ->
  truthy_str (Strategy.assoc "error" q) = false ->
  authenticate req options =
  ([Strategy.EvError
      (APIError.ZaloAPIError
         (of_option (Strategy.assoc "error_message" q))
         (VNumber (number_of_Z false (Z.of_nat n))))],
   Normal tt).
Proof.
  intros Hq Hcode Hrest Herr. unfold Strategy.authenticate.
  rewrite Hq, Hcode, Herr. cbn [truthy_str Strategy.ToString].
  assert (Hne : (decimal n ++ rest =? "") = false).
  { unfold decimal. pose proof (to_uint_nonnil n) as Hnil.
    destruct (Nat.to_uint n); [contradiction | ..]; reflexivity. }
  rewrite Hne. cbn [negb andb].
  now rewrite (parseInt10_decimal n rest Hrest).
Qed.

(** X19: When [error_code] does not start with white space (of any length
    in bytes), nor with a sign, nor with a digit, and [error] is absent or
    empty, the ProviderError is still raised, and its code is NaN. *)
Theorem authenticate_code_NaN (req : Request) (options : Options)
  (q : list (string * string)) (c : ascii) (rest : string) :
  query req = Some q ->
  Strategy.assoc "error_code" q = Some (String c rest) ->
  white_space (String c rest) = None ->
  c <> "-"%char -> c <> "+"%char ->
  digit_of c = None ->
  truthy_str (Strategy.assoc "error" q) = false ->
  authenticate req options =
  ([Strategy.EvError
      (APIError.ZaloAPIError
         (of_option (Strategy.assoc "error_message" q)) (VNumber NaN))],
   Normal tt).
Proof.
  intros Hq Hcode Hw Hm Hp Hd Herr. unfold Strategy.authenticate.
  rewrite Hq, Hcode, Herr. cbn [truthy_str Strategy.ToString String.eqb negb andb].
  now rewrite (parseInt10_no_digit c rest Hw Hm Hp Hd).
Qed.

End AuthenticateFacts.

Lemma authenticate_decimal_code_witness :
  decimal 2004 = "2004" /\
  Demo.authenticate
    (Some [("error_code", "2004 (denied)"); ("error_message", "denied")]) tt
  = ([Strategy.EvError
        (APIError.ZaloAPIError (VString "denied")
           (VNumber (number_of_Z false 2004)))],
     Normal tt).
Proof.
  split; [reflexivity |].
  exact (authenticate_decimal_code Demo.Request unit Demo.query
           (Some [("error_code", "2004 (denied)");
                  ("error_message", "denied")]) tt
           [("error_code", "2004 (denied)"); ("error_message", "denied")]
           2004 " (denied)" eq_refl eq_refl eq_refl eq_refl).
Defined.

Lemma authenticate_code_NaN_witness :
  Demo.authenticate (Some [("error_code", "access_denied")]) tt
  = ([Strategy.EvError (APIError.ZaloAPIError VUndefined (VNumber NaN))],
     Normal tt).
Proof.
  apply (authenticate_code_NaN Demo.Request unit Demo.query
           (Some [("error_code", "access_denied")]) tt
           [("error_code", "access_denied")] "a"%char "ccess_denied");
    try reflexivity; discriminate.
Defined.

(** ** The two readers of an error body *)

Section ErrorBodyFacts.

Variable JSON_parse : string -> option value.
Variable Request Options : Type.
Variable TokenError : Type.
Variable OAuth2Strategy_parseErrorResponse :
  string -> number -> completion TokenError.

Local Abbreviation userProfile_callback :=
  (Strategy.userProfile_callback JSON_parse Request Options).
Local Abbreviation parseErrorResponse :=
  (Strategy.parseErrorResponse JSON_parse Request Options TokenError
     OAuth2Strategy_parseErrorResponse).

(** X20: [userProfile] and [parseErrorResponse] read an error body alike: on a
    transport error whose body is not empty, [done] receives a
    ProviderError exactly when [parseErrorResponse] returns one on that
    body, and then it is the same error. *)
Theorem error_body_read_alike (err : Strategy.transport_error)
  (d body : string) (status : number) (e : APIError.t) :
  Strategy.data err = Some d -> d <> "" ->
  userProfile_callback (Some err) body
  = ([Strategy.EvDone (Some (Strategy.APIError e)) None], Normal tt) <->
  snd (parseErrorResponse d status) = Normal (inl e).
Proof.
  intros Hd Hne.
  rewrite (callback_on_error JSON_parse Request Options err body), Hd.
  not_empty d.
  unfold Strategy.parseErrorResponse, Profile.JSON_parse_or_throw.
  destruct (JSON_parse d) as [json|]; cbn; [| split; discriminate].
  destruct (nullish json) eqn:Hn.
  { destruct json; try discriminate Hn; cbn; split; discriminate. }
  rewrite (get_not_nullish json "error" Hn). cbn.
  assert (Hj : truthy json && truthy (member json "error")
               = truthy (member json "error")).
  { destruct json; try reflexivity; try discriminate Hn;
      unfold member; cbn; now rewrite andb_false_r. }
  rewrite Hj.
  destruct (truthy (member json "error")) eqn:He; cbn.
  - destruct (typeof (member json "error") =? "object"); cbn.
    + rewrite !(get_truthy (member json "error")) by assumption. cbn.
      split; intros H; injection H as <-; reflexivity.
    + split; [discriminate |].
      destruct (OAuth2Strategy_parseErrorResponse d status); discriminate.
  - split; [discriminate |].
    destruct (OAuth2Strategy_parseErrorResponse d status); discriminate.
Qed.

End ErrorBodyFacts.

Lemma error_body_read_alike_witness :
  let err :=
    {| Strategy.statusCode := Some 400%Z;
       Strategy.data := Some Demo.invalid_token_body |} in
  Strategy.userProfile_callback Demo.JSON_parse Demo.Request unit
    (Some err) ""
  = ([Strategy.EvDone (Some (Strategy.APIError Demo.invalid_token)) None],
     Normal tt).
Proof.
  intros err.
  apply (proj2 (error_body_read_alike Demo.JSON_parse Demo.Request unit unit
                  Demo.default_parseErrorResponse err
                  Demo.invalid_token_body "" (number_of_Z false 400)
                  Demo.invalid_token eq_refl ltac:(discriminate))).
  reflexivity.
Defined.

Lemma parseErrorResponse_as_engine_witness :
  Demo.JSON_parse "null" = Some VNull /\
  snd (Strategy.parseErrorResponse Demo.JSON_parse Demo.Request unit unit
         Demo.reading_parseErrorResponse "null" (number_of_Z false 400))
  = match Demo.reading_parseErrorResponse "null" (number_of_Z false 400) with
    | Normal r => Normal (inr r)
    | Throw x => Throw x
    end.
Proof.
  split; [reflexivity |].
  apply (parseErrorResponse_as_engine Demo.JSON_parse Demo.Request unit unit
           Demo.reading_parseErrorResponse).
  - intros H. discriminate H.
  - intros json Hj _. reflexivity.
  - intros json e Hj He. injection Hj as <-. discriminate He.
Defined.
